(** * DAKboard earnings calendar server: a shallow embedding of [app.js]

    The development follows the source file top to bottom: the JavaScript
    built-ins the program calls ([Date], [Number::toString], string
    splitting, [Array.prototype.sort]), then [formatDate],
    [fetchEarningsData], [initializeData], the [/api/refresh] handler and
    [getSampleData].  The earlier revision of the server kept in
    [unnamed/part_000] has the same grouping and flattening code, line for
    line (its lines 43-133 are lines 74-164 of [app.js]), so [groupEarnings]
    and [transform] below embed both files. *)

From Stdlib Require Import ZArith List String Ascii Bool Lia.
From Stdlib Require Import DecimalString Sorted Permutation.
Import ListNotations.

Local Open Scope string_scope.
Local Open Scope list_scope.
Local Open Scope Z_scope.

(** String concatenation, the [+] and the template literals of the source. *)
Infix "+++" := String.append (right associativity, at level 60).

(* ===================================================================== *)
(** ** Small string helpers *)
(* ===================================================================== *)

(** Decimal rendering of an integer, as template literals render integral
    Numbers. *)
Definition decimal (z : Z) : string := NilZero.string_of_int (Z.to_int z).

Fixpoint repeatChar (c : ascii) (n : nat) : string :=
  match n with
  | O => EmptyString
  | S n' => String c (repeatChar c n')
  end.

(** The character of a decimal digit. *)
Definition digitChar (d : Z) : ascii := ascii_of_nat (Z.to_nat (48 + d)).

(** The [n] low decimal digits of [z], most significant first, in front of
    [acc]. *)
Fixpoint fixedDigits (n : nat) (z : Z) (acc : list ascii) : list ascii :=
  match n with
  | O => acc
  | S n' => fixedDigits n' (z / 10) (digitChar (z mod 10) :: acc)
  end.

(** A field of a date-time string: [z] as [n] decimal digits. *)
Definition digits (n : nat) (z : Z) : string :=
  string_of_list_ascii (fixedDigits n z []).

(** [s.split(c)[0]]: the part of [s] before the first occurrence of the
    separator, the whole of [s] when the separator does not occur. *)
Fixpoint split0 (c : ascii) (s : string) : string :=
  match s with
  | EmptyString => EmptyString
  | String a s' => if Ascii.eqb a c then EmptyString else String a (split0 c s')
  end.

(** Code-unit lexicographic order on strings. *)
Definition lexLe (a b : string) : Prop := String.leb a b = true.

(* ===================================================================== *)
(** ** Numbers and their string conversion *)
(* ===================================================================== *)

(** A JavaScript Number is represented by the decimal expansion that
    [Number::toString] prints: sign, decimal digits [s] and a power of ten,
    the value being [s * 10^e].  Every finite double has such an expansion
    (its shortest round-trip digits), and a JSON literal of at most 15
    significant digits denotes its own expansion. *)
Inductive Number : Type :=
| NumNaN
| NumInfinity (neg : bool)
| NumZero (neg : bool)
| NumDec (neg : bool) (s : positive) (e : Z).

(** [ToBoolean] on Numbers: [NaN], [+0] and [-0] are falsy. *)
Definition Number_truthy (x : Number) : bool :=
  match x with
  | NumNaN | NumZero _ => false
  | NumInfinity _ | NumDec _ _ _ => true
  end.

(** Trailing zero digits of a digit list, given most significant first:
    the digits without them, and how many were removed. *)
Fixpoint stripZeros (ds : list ascii) : list ascii * nat :=
  match ds with
  | [] => ([], O)
  | d :: ds' =>
      match stripZeros ds' with
      | ([], k) => if Ascii.eqb d "0"%char then ([], S k) else ([d], k)
      | (r, k) => (d :: r, k)
      end
  end.

Definition zeros (n : Z) : string := repeatChar "0"%char (Z.to_nat n).

(** [Number::toString(x)] in radix 10: with [k] digits [ds] (no trailing
    zero) and [x = 0.ds * 10^n], the four layouts of the standard. *)
Definition Number_toString (x : Number) : string :=
  match x with
  | NumNaN => "NaN"
  | NumInfinity neg => if neg then "-Infinity" else "Infinity"
  | NumZero _ => "0"
  | NumDec neg s e =>
      let (ds, z) := stripZeros (list_ascii_of_string (decimal (Z.pos s))) in
      let k := Z.of_nat (List.length ds) in
      let n := e + Z.of_nat z + k in
      let body :=
        if (k <=? n) && (n <=? 21) then
          string_of_list_ascii ds +++ zeros (n - k)
        else if (0 <? n) && (n <=? 21) then
          string_of_list_ascii (firstn (Z.to_nat n) ds) +++ "." +++
          string_of_list_ascii (skipn (Z.to_nat n) ds)
        else if (-6 <? n) && (n <=? 0) then
          "0." +++ zeros (- n) +++ string_of_list_ascii ds
        else
          let ex := (if n - 1 <? 0 then "-" else "+") +++ decimal (Z.abs (n - 1)) in
          match ds with
          | [d] => String d ("e" +++ ex)
          | d :: rest => String d ("." +++ string_of_list_ascii rest +++ "e" +++ ex)
          | [] => "0"
          end
      in
      if neg then "-" +++ body else body
  end.

(* ===================================================================== *)
(** ** Time values and the civil calendar *)
(* ===================================================================== *)

(** A time value is a number of milliseconds since the epoch;
    [None] is the NaN of an Invalid Date. *)
Definition TimeValue : Type := option Z.

Definition msPerDay : Z := 86400000.
Definition msPerHour : Z := 3600000.
Definition msPerMinute : Z := 60000.
Definition msPerSecond : Z := 1000.

Definition Day (t : Z) : Z := t / msPerDay.
Definition TimeWithinDay (t : Z) : Z := t mod msPerDay.

(** Day of the week of a time value: 0 is Sunday, 6 is Saturday. *)
Definition WeekDay (t : Z) : Z := (Day t + 4) mod 7.

(** Day number (days since 1970-01-01) of a proleptic Gregorian date,
    [m] in 1..12. *)
Definition days_from_civil (y m d : Z) : Z :=
  let y' := if m <=? 2 then y - 1 else y in
  let era := y' / 400 in
  let yoe := y' - era * 400 in
  let doy := (153 * (if 2 <? m then m - 3 else m + 9) + 2) / 5 + d - 1 in
  let doe := yoe * 365 + yoe / 4 - yoe / 100 + doy in
  era * 146097 + doe - 719468.

(** Year, month (1..12) and day of the month of a day number. *)
Definition civil_from_days (z : Z) : Z * Z * Z :=
  let z' := z + 719468 in
  let era := z' / 146097 in
  let doe := z' - era * 146097 in
  let yoe := (doe - doe / 1460 + doe / 36524 - doe / 146096) / 365 in
  let y := yoe + era * 400 in
  let doy := doe - (365 * yoe + yoe / 4 - yoe / 100) in
  let mp := (5 * doy + 2) / 153 in
  let d := doy - (153 * mp + 2) / 5 + 1 in
  let m := if mp <? 10 then mp + 3 else mp - 9 in
  (if m <=? 2 then y + 1 else y, m, d).

Definition YearFromTime (t : Z) : Z :=
  let '(y, _, _) := civil_from_days (Day t) in y.

(** Month of a time value, 0 for January as in the standard. *)
Definition MonthFromTime (t : Z) : Z :=
  let '(_, m, _) := civil_from_days (Day t) in m - 1.

Definition DateFromTime (t : Z) : Z :=
  let '(_, _, d) := civil_from_days (Day t) in d.

Definition HourFromTime (t : Z) : Z := (t / msPerHour) mod 24.
Definition MinFromTime (t : Z) : Z := (t / msPerMinute) mod 60.
Definition SecFromTime (t : Z) : Z := (t / msPerSecond) mod 60.
Definition msFromTime (t : Z) : Z := t mod msPerSecond.

(** [MakeDay(year, month, date)], month counted from 0 and allowed to
    overflow, as is [date]. *)
Definition MakeDay (year month date : Z) : Z :=
  let ym := year + month / 12 in
  let mn := month mod 12 in
  days_from_civil ym (mn + 1) 1 + date - 1.

Definition MakeDate (day time : Z) : Z := day * msPerDay + time.

Definition TimeClip (t : Z) : TimeValue :=
  if 8640000000000000 <? Z.abs t then None else Some t.

Definition daysInMonth (y m : Z) : Z :=
  days_from_civil (if m =? 12 then y + 1 else y) (if m =? 12 then 1 else m + 1) 1
  - days_from_civil y m 1.

(* ===================================================================== *)
(** ** Exceptions *)
(* ===================================================================== *)

Inductive Exn : Type :=
| TypeError
| RangeError
| SyntaxError
| FetchError
| IOError.

(** The outcome of an expression that may throw. *)
Inductive Result (A : Type) : Type :=
| Ok (a : A)
| Throw (e : Exn).
Arguments Ok {A} a.
Arguments Throw {A} e.

Definition Result_bind {A B} (r : Result A) (k : A -> Result B) : Result B :=
  match r with
  | Ok a => k a
  | Throw e => Throw e
  end.

(* ===================================================================== *)
(** ** The host: what the program leaves to its JavaScript engine *)
(* ===================================================================== *)

(** Three behaviours are fixed by the machine the server runs on, not by
    the program: the local time zone, the parse of date strings outside the
    ISO date form, and the collation of [localeCompare]. *)
Class Host : Type := {
  (** [LocalTZA(t, isUTC)]: the offset of local time from UTC in
      milliseconds, at the UTC instant [t] ([isUTC = true]) or at the local
      time [t] ([isUTC = false]). *)
  LocalTZA : Z -> bool -> Z;
  (** [Date.parse] on a string that is not a valid [YYYY-MM-DD]. *)
  Date_parse_fallback : string -> TimeValue;
  (** [a.localeCompare(b)]: negative, zero or positive. *)
  localeCompare : string -> string -> Z
}.

(** Code-unit lexicographic comparison, as a comparator result. *)
Definition lexCompare (a b : string) : Z :=
  match String.compare a b with
  | Lt => -1
  | Eq => 0
  | Gt => 1
  end.

(** A server whose clock is set to UTC.  It reads dates in the ISO date
    form only, and its collation is the code-unit order, which is how every
    collation ranks upper-case ASCII tickers; the runs below stay within
    both. *)
Definition hostUTC : Host := {|
  LocalTZA := fun _ _ => 0;
  Date_parse_fallback := fun _ => None;
  localeCompare := lexCompare
|}.

(** A server on US Eastern time, with the daylight-saving rules of 2024:
    UTC-4 from 2024-03-10 07:00 UTC to 2024-11-03 06:00 UTC, UTC-5 outside.
    A local time that the spring change skips takes the offset before it, a
    local time that the autumn change repeats takes the earlier instant. *)
Definition hostNewYork : Host := {|
  LocalTZA := fun t isUTC =>
    let mar10 := days_from_civil 2024 3 10 * msPerDay in
    let nov3 := days_from_civil 2024 11 3 * msPerDay in
    let dst :=
      if isUTC
      then (mar10 + 7 * msPerHour <=? t) && (t <? nov3 + 6 * msPerHour)
      else (mar10 + 3 * msPerHour <=? t) && (t <? nov3 + 2 * msPerHour) in
    if dst then -4 * msPerHour else -5 * msPerHour;
  Date_parse_fallback := fun _ => None;
  localeCompare := lexCompare
|}.

(* ===================================================================== *)
(** ** Date objects *)
(* ===================================================================== *)

Section DateObjects.
Context {H : Host}.

Definition LocalTime (t : Z) : Z := t + LocalTZA t true.
Definition UTC (t : Z) : Z := t - LocalTZA t false.

Definition digitOf (c : ascii) : option Z :=
  let n := Z.of_nat (nat_of_ascii c) in
  if (48 <=? n) && (n <=? 57) then Some (n - 48) else None.

(** The value of a digit sequence, [None] when some character is not a
    digit. *)
Fixpoint digitsValue (acc : Z) (cs : list ascii) : option Z :=
  match cs with
  | [] => Some acc
  | c :: cs' =>
      match digitOf c with
      | Some d => digitsValue (10 * acc + d) cs'
      | None => None
      end
  end.

(** The date-only form [YYYY-MM-DD] of the date-time string format, with a
    month and a day that exist: the time value of that day's midnight UTC. *)
Definition parseISODate (s : string) : option Z :=
  match list_ascii_of_string s with
  | [y1; y2; y3; y4; h1; m1; m2; h2; d1; d2] =>
      if Ascii.eqb h1 "-"%char && Ascii.eqb h2 "-"%char then
        match digitsValue 0 [y1; y2; y3; y4],
              digitsValue 0 [m1; m2],
              digitsValue 0 [d1; d2] with
        | Some y, Some m, Some d =>
            if (1 <=? m) && (m <=? 12) && (1 <=? d) && (d <=? daysInMonth y m)
            then Some (days_from_civil y m d * msPerDay)
            else None
        | _, _, _ => None
        end
      else None
  | _ => None
  end.

(** [new Date(s)] for a string [s]. *)
Definition Date_parse (s : string) : TimeValue :=
  match parseISODate s with
  | Some t => TimeClip t
  | None => Date_parse_fallback s
  end.

(** [date.getDay()], the local day of the week; [None] is NaN. *)
Definition getDay (date : TimeValue) : option Z :=
  option_map (fun t => WeekDay (LocalTime t)) date.

(** [date.getDate()], the local day of the month; [None] is NaN. *)
Definition getDate (date : TimeValue) : option Z :=
  option_map (fun t => DateFromTime (LocalTime t)) date.

(** [date.setDate(dt)]: the day of the month is replaced in local time and
    the result converted back to UTC. *)
Definition setDate (date : TimeValue) (dt : option Z) : TimeValue :=
  match date, dt with
  | Some tv, Some d =>
      let t := LocalTime tv in
      let newDate :=
        MakeDate (MakeDay (YearFromTime t) (MonthFromTime t) d) (TimeWithinDay t) in
      TimeClip (UTC newDate)
  | _, _ => None
  end.

(** [date.toISOString()], always in UTC; throws on an Invalid Date.  The
    year takes four digits, or a sign and six digits outside 0..9999. *)
Definition toISOString (date : TimeValue) : Result string :=
  match date with
  | None => Throw RangeError
  | Some t =>
      let y := YearFromTime t in
      let year :=
        if (0 <=? y) && (y <=? 9999) then digits 4 y
        else (if y <? 0 then "-" else "+") +++ digits 6 (Z.abs y) in
      Ok (year +++ "-" +++ digits 2 (MonthFromTime t + 1) +++ "-" +++
          digits 2 (DateFromTime t) +++ "T" +++ digits 2 (HourFromTime t) +++ ":" +++
          digits 2 (MinFromTime t) +++ ":" +++ digits 2 (SecFromTime t) +++ "." +++
          digits 3 (msFromTime t) +++ "Z")
  end.

Definition monthNames : list string :=
  ["January"; "February"; "March"; "April"; "May"; "June"; "July";
   "August"; "September"; "October"; "November"; "December"].

(** [date.toLocaleDateString('en-US', { month: 'long', day: 'numeric',
    year: 'numeric' })]. *)
Definition toLocaleDateString (date : TimeValue) : string :=
  match date with
  | None => "Invalid Date"
  | Some tv =>
      let t := LocalTime tv in
      nth (Z.to_nat (MonthFromTime t)) monthNames "" +++ " " +++
      decimal (DateFromTime t) +++ ", " +++ decimal (YearFromTime t)
  end.

(** [formatDate], app.js lines 39-41. *)
Definition formatDate (date : TimeValue) : Result string :=
  Result_bind (toISOString date) (fun iso => Ok (split0 "T"%char iso)).

End DateObjects.

(* ===================================================================== *)
(** ** Arrays *)
(* ===================================================================== *)

Section ArraySort.
Context {A : Type} (cmp : A -> A -> Z).

(** [x] goes in front of the first element it does not compare greater
    than, so equal elements keep their order. *)
Fixpoint insertBy (x : A) (l : list A) : list A :=
  match l with
  | [] => [x]
  | y :: l' => if 0 <? cmp x y then y :: insertBy x l' else x :: l
  end.

(** [Array.prototype.sort(cmp)].  The sort of the standard is stable, and
    for a consistent comparator its result is determined; insertion from
    the right computes it. *)
Definition Array_sort (l : list A) : list A := fold_right insertBy [] l.

End ArraySort.

(* ===================================================================== *)
(** ** Data model *)
(* ===================================================================== *)

(** A record of the earnings API, app.js lines 77-96: the fields the
    program reads.  An absent [name] or [epsEstimated] ([undefined] or
    [null]) is [None]. *)
Module Raw.
Record t : Type := {
  date : string;
  symbol : string;
  name : option string;
  epsEstimated : option Number
}.
End Raw.

(** The object pushed under a date key, lines 92-96. *)
Record Earning : Type := {
  symbol : string;
  name : string;
  eps : option Number
}.

(** An element of the DAKboard array. *)
Record Card : Type := {
  value : string;
  title : string;
  subtitle : string
}.

(** [earningsByDate]: an object with date keys.  Its own string keys are
    enumerated in the order of their creation, hence an association list in
    insertion order. *)
Definition EarningsByDate : Type := list (string * list Earning).

(* ===================================================================== *)
(** ** Grouping, app.js lines 75-97 *)
(* ===================================================================== *)

(** [day === 0 || day === 6]; NaN equals neither. *)
Definition isWeekend (day : option Z) : bool :=
  match day with
  | Some d => (d =? 0) || (d =? 6)
  | None => false
  end.

(** [a || b] on an optional string: the empty string is falsy. *)
Definition orElse (a : option string) (b : string) : string :=
  match a with
  | Some s => if String.eqb s "" then b else s
  | None => b
  end.

(** [if (!m[k]) m[k] = []; m[k].push(e)]. *)
Fixpoint pushUnder (k : string) (e : Earning) (m : EarningsByDate) : EarningsByDate :=
  match m with
  | [] => [(k, [e])]
  | (k', es) :: m' =>
      if String.eqb k' k then (k', es ++ [e]) :: m'
      else (k', es) :: pushUnder k e m'
  end.

Section Pipeline.
Context {H : Host}.

(** The callback of [data.forEach], lines 77-97. *)
Definition groupOne (m : EarningsByDate) (earning : Raw.t) : Result EarningsByDate :=
  let date := Date_parse (split0 " "%char (Raw.date earning)) in
  let day := getDay date in
  if isWeekend day then Ok m
  else
    Result_bind (formatDate date) (fun formattedDate =>
      Ok (pushUnder formattedDate
            {| symbol := Raw.symbol earning;
               name := orElse (Raw.name earning) (Raw.symbol earning);
               eps := Raw.epsEstimated earning |} m)).

(** [data.forEach(...)] from a given state of [earningsByDate]; an
    exception in the callback ends the loop. *)
Fixpoint forEachGroup (m : EarningsByDate) (data : list Raw.t) : Result EarningsByDate :=
  match data with
  | [] => Ok m
  | earning :: rest => Result_bind (groupOne m earning) (fun m' => forEachGroup m' rest)
  end.

Definition groupEarnings (data : list Raw.t) : Result EarningsByDate :=
  forEachGroup [] data.

(* ===================================================================== *)
(** ** Flattening, app.js lines 99-164 *)
(* ===================================================================== *)

Definition headerValue : string := "The Most Anticipated Earnings Releases".
Definition noteValue : string := "(only showing confirmed release dates)".

(** Lines 103-107 and 234-237. *)
Definition headerCard (today : TimeValue) : Card :=
  {| value := headerValue;
     title := "";
     subtitle := "for the period beginning " +++ toLocaleDateString today |}.

(** Lines 110-114 and 238-242. *)
Definition noteCard : Card :=
  {| value := noteValue; title := ""; subtitle := "" |}.

Definition separatorCard : Card :=
  {| value := "---"; title := ""; subtitle := "" |}.

Definition dayLabels : list string :=
  ["Monday"; "Tuesday"; "Wednesday"; "Thursday"; "Friday"].

(** The template literal of a Number that may be NaN. *)
Definition numberText (n : option Z) : string :=
  match n with
  | Some z => decimal z
  | None => "NaN"
  end.

(** Lines 135-143. *)
Definition dayCard (businessDaysCounter : nat) (date : TimeValue) : Card :=
  let dayName := nth (businessDaysCounter mod 5) dayLabels "undefined" in
  let displayDate := getDate date in
  {| value := dayName +++ " - " +++ numberText displayDate;
     title := "";
     subtitle := "" |}.

(** [earning.eps ? `Est. EPS: $${earning.eps}` : ""], line 150. *)
Definition epsSubtitle (eps : option Number) : string :=
  match eps with
  | Some x => if Number_truthy x then "Est. EPS: $" +++ Number_toString x else ""
  | None => ""
  end.

(** Lines 147-151. *)
Definition companyCard (earning : Earning) : Card :=
  {| value := symbol earning;
     title := name earning;
     subtitle := epsSubtitle (eps earning) |}.

(** [earnings.sort((a, b) => a.symbol.localeCompare(b.symbol))], line 132. *)
Definition sortEarnings (earnings : list Earning) : list Earning :=
  Array_sort (fun a b => localeCompare (symbol a) (symbol b)) earnings.

(** [Object.entries(earningsByDate).sort(([a], [b]) => a.localeCompare(b))],
    line 119. *)
Definition dateEntries (earningsByDate : EarningsByDate) : list (string * list Earning) :=
  Array_sort (fun a b => localeCompare (fst a) (fst b)) earningsByDate.

(** What one iteration of the loop pushes for a date that is not skipped,
    lines 131-161. *)
Definition dayBlock (businessDaysCounter : nat) (dateStr : string)
    (earnings : list Earning) : list Card :=
  [dayCard businessDaysCounter (Date_parse dateStr)]
  ++ map companyCard (sortEarnings earnings)
  ++ (if (businessDaysCounter <? 9)%nat then [separatorCard] else []).

(** The [for ... of dateEntries] loop, lines 122-164, from a given state
    of [dakboardData] and [businessDaysCounter]; it returns both. *)
Fixpoint dateLoop (entries : list (string * list Earning))
    (businessDaysCounter : nat) (dakboardData : list Card) : list Card * nat :=
  match entries with
  | [] => (dakboardData, businessDaysCounter)
  | (dateStr, earnings) :: rest =>
      if (10 <=? businessDaysCounter)%nat then (dakboardData, businessDaysCounter)
      else
        let date := Date_parse dateStr in
        let dayOfWeek := getDay date in
        if isWeekend dayOfWeek then dateLoop rest businessDaysCounter dakboardData
        else
          dateLoop rest (S businessDaysCounter)
            (dakboardData ++ dayBlock businessDaysCounter dateStr earnings)
  end.

(** Lines 100-164: the array built from the grouped earnings. *)
Definition transform (today : TimeValue) (earningsByDate : EarningsByDate)
    : list Card * nat :=
  dateLoop (dateEntries earningsByDate) 0%nat [headerCard today; noteCard].

End Pipeline.

(* ===================================================================== *)
(** ** Sample data, app.js lines 228-479 *)
(* ===================================================================== *)

(** The literal cards after the two heading cards, lines 243-477. *)
Definition sampleBody : list Card :=
  [
    {| value := "Monday - 14"; title := ""; subtitle := "" |};
    {| value := "AMEX"; title := "American Express"; subtitle := "Est. EPS: $2.45" |};
    {| value := "MTB"; title := "M&T Bank"; subtitle := "Est. EPS: $3.12" |};
    {| value := "FBK"; title := "First Bank"; subtitle := "Est. EPS: $0.78" |};
    {| value := "PNFP"; title := "Pinnacle Financial"; subtitle := "Est. EPS: $1.65" |};
    {| value := "KSTR"; title := "Kestra Financial"; subtitle := "Est. EPS: $0.92" |};
    {| value := "---"; title := ""; subtitle := "" |};
    {| value := "Tuesday - 15"; title := ""; subtitle := "" |};
    {| value := "BAC"; title := "Bank of America"; subtitle := "Est. EPS: $0.82" |};
    {| value := "UAL"; title := "United Airlines"; subtitle := "Est. EPS: $2.34" |};
    {| value := "C"; title := "Citigroup"; subtitle := "Est. EPS: $1.42" |};
    {| value := "JNJ"; title := "Johnson & Johnson"; subtitle := "Est. EPS: $2.75" |};
    {| value := "---"; title := ""; subtitle := "" |};
    {| value := "Wednesday - 16"; title := ""; subtitle := "" |};
    {| value := "ASML"; title := "ASML Holding"; subtitle := "Est. EPS: $3.54" |};
    {| value := "AA"; title := "Alcoa"; subtitle := "Est. EPS: $0.22" |};
    {| value := "PGR"; title := "Progressive"; subtitle := "Est. EPS: $2.40" |};
    {| value := "ABT"; title := "Abbott Laboratories"; subtitle := "Est. EPS: $1.12" |};
    {| value := "---"; title := ""; subtitle := "" |};
    {| value := "Thursday - 17"; title := ""; subtitle := "" |};
    {| value := "NFLX"; title := "Netflix"; subtitle := "Est. EPS: $4.72" |};
    {| value := "TSM"; title := "Taiwan Semiconductor"; subtitle := "Est. EPS: $1.32" |};
    {| value := "UNH"; title := "UnitedHealth Group"; subtitle := "Est. EPS: $6.68" |};
    {| value := "---"; title := ""; subtitle := "" |};
    {| value := "Friday - 18"; title := ""; subtitle := "" |};
    {| value := "ALLY"; title := "Ally Financial"; subtitle := "Est. EPS: $0.54" |};
    {| value := "DHI"; title := "D.R. Horton"; subtitle := "Est. EPS: $3.24" |};
    {| value := "---"; title := ""; subtitle := "" |};
    {| value := "Monday - 21"; title := ""; subtitle := "" |};
    {| value := "AZZ"; title := "AZZ Inc"; subtitle := "Est. EPS: $0.92" |};
    {| value := "AGNC"; title := "AGNC Investment"; subtitle := "Est. EPS: $0.54" |};
    {| value := "---"; title := ""; subtitle := "" |};
    {| value := "Tuesday - 22"; title := ""; subtitle := "" |};
    {| value := "TSLA"; title := "Tesla"; subtitle := "Est. EPS: $0.67" |};
    {| value := "VZ"; title := "Verizon"; subtitle := "Est. EPS: $1.18" |};
    {| value := "---"; title := ""; subtitle := "" |};
    {| value := "Wednesday - 23"; title := ""; subtitle := "" |};
    {| value := "IBM"; title := "IBM"; subtitle := "Est. EPS: $1.58" |};
    {| value := "T"; title := "AT&T"; subtitle := "Est. EPS: $0.57" |};
    {| value := "---"; title := ""; subtitle := "" |};
    {| value := "Thursday - 24"; title := ""; subtitle := "" |};
    {| value := "INTC"; title := "Intel"; subtitle := "Est. EPS: $0.13" |};
    {| value := "MS"; title := "Morgan Stanley"; subtitle := "Est. EPS: $1.72" |};
    {| value := "---"; title := ""; subtitle := "" |};
    {| value := "Friday - 25"; title := ""; subtitle := "" |};
    {| value := "CVX"; title := "Chevron"; subtitle := "Est. EPS: $3.05" |};
    {| value := "XOM"; title := "Exxon Mobil"; subtitle := "Est. EPS: $2.12" |}
  ].

Section Server.
Context {H : Host}.

(** [getSampleData()], called at the instant [now]. *)
Definition getSampleData (now : Z) : list Card :=
  let today := Some now in
  headerCard today :: noteCard :: sampleBody.

(* ===================================================================== *)
(** ** The server state and its surroundings *)
(* ===================================================================== *)

(** The file [earnings_data.json]: absent, holding the JSON of a card
    array, or holding text that [JSON.parse] rejects. *)
Inductive FileState : Type :=
| NoFile
| FileCards (cards : list Card)
| FileCorrupt.

(** The mutable state: the module variable [cachedData] and the file at
    [config.dataFile]. *)
Record World : Type := {
  cachedData : list Card;
  dataFile : FileState
}.

(** What [await fetch(url)] followed by [await response.json()] yields. *)
Inductive Fetched : Type :=
| Rejected
| NotAnArray
| ArrayOf (data : list Raw.t).

(** What [fs.writeFileSync] does: it succeeds, or it throws and leaves the
    file untouched ([None]) or in some other state. *)
Inductive WriteOutcome : Type :=
| WriteOk
| WriteFails (residue : option FileState).

(** The surroundings of one call of [fetchEarningsData]: the clock at its
    [new Date()], the clock at the [new Date()] of [getSampleData], the
    network as a function of the URL, and the disk. *)
Record Io : Type := {
  clock : Z;
  clockSample : Z;
  http : string -> Fetched;
  disk : WriteOutcome
}.

(** Computations over the server state that may throw. *)
Definition M (A : Type) : Type := World -> Result A * World.

Definition ret {A} (a : A) : M A := fun w => (Ok a, w).

Definition bind {A B} (c : M A) (k : A -> M B) : M B :=
  fun w =>
    match c w with
    | (Ok a, w') => k a w'
    | (Throw e, w') => (Throw e, w')
    end.

Definition liftR {A} (r : Result A) : M A := fun w => (r, w).

(** [try { body } catch (error) { handler }]. *)
Definition tryCatch {A} (body : M A) (handler : Exn -> M A) : M A :=
  fun w =>
    match body w with
    | (Ok a, w') => (Ok a, w')
    | (Throw e, w') => handler e w'
    end.

Notation "x <- c ;; k" := (bind c (fun x => k))
  (at level 61, c at next level, right associativity).
Notation "c ;;; k" := (bind c (fun _ => k))
  (at level 61, right associativity).

Definition setCachedData (cards : list Card) : M unit :=
  fun w => (Ok tt, {| cachedData := cards; dataFile := dataFile w |}).

Definition writeFileSync (io : Io) (cards : list Card) : M unit :=
  fun w =>
    match disk io with
    | WriteOk => (Ok tt, {| cachedData := cachedData w; dataFile := FileCards cards |})
    | WriteFails None => (Throw IOError, w)
    | WriteFails (Some f) =>
        (Throw IOError, {| cachedData := cachedData w; dataFile := f |})
    end.

Definition fetchJson (io : Io) (url : string) : M Fetched :=
  match http io url with
  | Rejected => liftR (Throw FetchError)
  | data => ret data
  end.

(* ===================================================================== *)
(** ** [fetchEarningsData], app.js lines 44-177 *)
(* ===================================================================== *)

Definition apiKey : string := "wB2WppJXL6r6L4s8DjnXrrAA5ZySXgx1".

(** Lines 49-54: [fromDate] and [toDate]. *)
Definition fetchWindow (today : TimeValue) : Result (string * string) :=
  let endDate := setDate today (option_map (fun d => d + 14) (getDate today)) in
  Result_bind (formatDate today) (fun fromDate =>
  Result_bind (formatDate endDate) (fun toDate =>
  Ok (fromDate, toDate))).

(** Line 57. *)
Definition apiUrl (fromDate toDate : string) : string :=
  "https://financialmodelingprep.com/api/v3/earning-calendar?from=" +++ fromDate
  +++ "&to=" +++ toDate +++ "&apikey=" +++ apiKey.

(** The body of the [try], lines 46-171. *)
Definition fetchEarningsData_try (io : Io) : M (list Card) :=
  let today := Some (clock io) in
  range <- liftR (fetchWindow today) ;;
  data <- fetchJson io (apiUrl (fst range) (snd range)) ;;
  match data with
  | ArrayOf data =>
      earningsByDate <- liftR (groupEarnings data) ;;
      let dakboardData := fst (transform today earningsByDate) in
      writeFileSync io dakboardData ;;;
      setCachedData dakboardData ;;;
      ret dakboardData
  | NotAnArray | Rejected => ret (getSampleData (clockSample io))
  end.

Definition fetchEarningsData (io : Io) : M (list Card) :=
  tryCatch (fetchEarningsData_try io)
           (fun _ => ret (getSampleData (clockSample io))).

(* ===================================================================== *)
(** ** [initializeData] and the routes, app.js lines 180-215 *)
(* ===================================================================== *)

Definition initializeData (io : Io) : M unit :=
  tryCatch
    (fun w =>
       match dataFile w with
       | FileCards cards => setCachedData cards w
       | FileCorrupt => (Throw SyntaxError, w)
       | NoFile => (data <- fetchEarningsData io ;; setCachedData data) w
       end)
    (fun _ => setCachedData (getSampleData (clockSample io))).

(** The JSON object sent by [/api/refresh]. *)
Record RefreshReply : Type := {
  success : bool;
  message : string;
  count : nat
}.

(** [app.get('/api/refresh', ...)], lines 212-215. *)
Definition apiRefresh (io : Io) : M RefreshReply :=
  data <- fetchEarningsData io ;;
  ret {| success := true;
         message := "Data refreshed successfully";
         count := List.length data |}.

(** [app.get('/api/earnings', ...)], lines 207-209. *)
Definition apiEarnings : M (list Card) :=
  fun w => (Ok (cachedData w), w).

End Server.

(* ===================================================================== *)
(** ** Reading the flat card array *)
(* ===================================================================== *)

(** [s] begins with [p]. *)
Fixpoint startsWith (p s : string) : bool :=
  match p with
  | EmptyString => true
  | String a p' =>
      match s with
      | EmptyString => false
      | String b s' => Ascii.eqb a b && startsWith p' s'
      end
  end.

(** The cards carry no tag; a Day-label card is recognised by its shape:
    a value that begins with a weekday label and [" - "], and an empty
    title and subtitle. *)
Definition isDayLabel (c : Card) : bool :=
  String.eqb (title c) "" && String.eqb (subtitle c) "" &&
  existsb (fun l => startsWith (l +++ " - ") (value c)) dayLabels.

Definition countIf {A} (p : A -> bool) (l : list A) : nat :=
  List.length (filter p l).

(** The day of the week of the calendar date that a key [YYYY-MM-DD]
    names. *)
Definition keyWeekDay (k : string) : option Z :=
  option_map WeekDay (parseISODate k).

(** The number of days from the date named by [fromDate] to the date named
    by [toDate]. *)
Definition daysBetween (fromDate toDate : string) : option Z :=
  match parseISODate fromDate, parseISODate toDate with
  | Some a, Some b => Some (Day b - Day a)
  | _, _ => None
  end.


(** The text [YYYY-MM-DD] of a date with a year in 0..9999. *)
Definition isoDate (y m d : Z) : string :=
  digits 4 y +++ "-" +++ digits 2 m +++ "-" +++ digits 2 d.

(** A key stands for a weekday when it is the UTC date of an instant that
    falls on Monday to Friday. *)
Definition weekdayKey (k : string) : Prop :=
  exists t, formatDate (Some t) = Ok k /\ WeekDay t <> 0 /\ WeekDay t <> 6.

(** An entry as the grouping stage builds it: the name is empty only when
    the symbol is. *)
Definition groupedEntry (e : Earning) : Prop :=
  name e = "" -> symbol e = "".

Definition groupedMap (m : EarningsByDate) : Prop :=
  Forall (fun kv => Forall groupedEntry (snd kv)) m.

Section Reading.
Context {H : Host}.

(** The weekend test of line 82, on a record. *)
Definition skipped (earning : Raw.t) : bool :=
  isWeekend (getDay (Date_parse (split0 " "%char (Raw.date earning)))).

(** The entries for which the loop pushes a day block, each with the value
    of the counter at that moment. *)
Fixpoint emittedDays (entries : list (string * list Earning)) (c : nat)
    : list (nat * (string * list Earning)) :=
  match entries with
  | [] => []
  | (dateStr, earnings) :: rest =>
      if (10 <=? c)%nat then []
      else if isWeekend (getDay (Date_parse dateStr)) then emittedDays rest c
      else (c, (dateStr, earnings)) :: emittedDays rest (S c)
  end.

Definition blockOf (d : nat * (string * list Earning)) : list Card :=
  dayCard (fst d) (Date_parse (fst (snd d)))
  :: map companyCard (sortEarnings (snd (snd d)))
  ++ (if (fst d <? 9)%nat then [separatorCard] else []).

End Reading.

(* ===================================================================== *)
(** ** Concrete runs *)
(* ===================================================================== *)

(** 2024-01-11 12:00 UTC, a Thursday. *)
Definition jan11 : Z := days_from_civil 2024 1 11 * msPerDay + 12 * msPerHour.

(** 2024-03-02 00:30 UTC, which is 2024-03-01 19:30 in New York, nine days
    before the clocks there go forward. *)
Definition mar2 : Z := days_from_civil 2024 3 2 * msPerDay + 30 * msPerMinute.

(** One record on Monday 2024-01-15, with a time of day. *)
Definition aaplRecord : Raw.t :=
  {| Raw.date := "2024-01-15 16:00"; Raw.symbol := "AAPL"; Raw.name := None;
     Raw.epsEstimated := Some (NumDec false 15 (-1)) |}.

(** One record on Saturday 2024-01-13. *)
Definition saturdayRecord : Raw.t :=
  {| Raw.date := "2024-01-13"; Raw.symbol := "BRK"; Raw.name := Some "Berkshire";
     Raw.epsEstimated := None |}.

(** One record on Monday 2024-01-15 whose estimate is 0. *)
Definition zeroEpsRecord : Raw.t :=
  {| Raw.date := "2024-01-15"; Raw.symbol := "FLAT"; Raw.name := Some "Flat Corp";
     Raw.epsEstimated := Some (NumZero false) |}.

Definition zzzRecord : Raw.t :=
  {| Raw.date := "2024-01-15"; Raw.symbol := "ZZZ"; Raw.name := None;
     Raw.epsEstimated := None |}.

Definition aaaRecord : Raw.t :=
  {| Raw.date := "2024-01-15"; Raw.symbol := "AAA"; Raw.name := None;
     Raw.epsEstimated := None |}.

(** Lower case of an ASCII capital letter; other characters are kept. *)
Definition lowerChar (c : ascii) : ascii :=
  let n := nat_of_ascii c in
  if ((65 <=? n) && (n <=? 90))%nat then ascii_of_nat (n + 32) else c.

Fixpoint lowerString (s : string) : string :=
  match s with
  | EmptyString => EmptyString
  | String c s' => String (lowerChar c) (lowerString s')
  end.

(** A collation in the manner of ICU on ASCII letters and digits: strings
    are compared without regard to case, and on a tie the lower-case letter
    comes first. *)
Definition caseFirstCompare (a b : string) : Z :=
  match String.compare (lowerString a) (lowerString b) with
  | Lt => -1
  | Gt => 1
  | Eq => lexCompare b a
  end.

(** A UTC server with that collation. *)
Definition hostCaseFolding : Host := {|
  LocalTZA := fun _ _ => 0;
  Date_parse_fallback := fun _ => None;
  localeCompare := caseFirstCompare
|}.

(** Two records on Monday 2024-01-15 whose symbols are not in capitals. *)
Definition aaplLowerRecord : Raw.t :=
  {| Raw.date := "2024-01-15"; Raw.symbol := "aapl"; Raw.name := Some "Apple";
     Raw.epsEstimated := None |}.

Definition brkMixedRecord : Raw.t :=
  {| Raw.date := "2024-01-15"; Raw.symbol := "Brk"; Raw.name := Some "Berkshire";
     Raw.epsEstimated := None |}.

(** A server that has just started with nothing cached. *)
Definition emptyWorld : World := {| cachedData := []; dataFile := NoFile |}.

(** What a UTC server builds at [jan11] from [aaplRecord] alone. *)
Definition aaplCards : list Card :=
  [ headerCard (H:=hostUTC) (Some jan11);
    noteCard;
    {| value := "Monday - 15"; title := ""; subtitle := "" |};
    {| value := "AAPL"; title := "AAPL"; subtitle := "Est. EPS: $1.5" |};
    separatorCard ].

(** A server that is serving [aaplCards], cached and on disk. *)
Definition servingWorld : World :=
  {| cachedData := aaplCards; dataFile := FileCards aaplCards |}.

(** A call at [jan11] to which the API answers with [data]. *)
Definition ioArray (data : list Raw.t) : Io :=
  {| clock := jan11; clockSample := jan11 + 250;
     http := fun _ => ArrayOf data; disk := WriteOk |}.

(** One record whose date is not a date. *)
Definition badDateRecord : Raw.t :=
  {| Raw.date := "soon"; Raw.symbol := "LATE"; Raw.name := None;
     Raw.epsEstimated := None |}.

(** A call at [jan11] answered with [data], on a disk that refuses the
    write and leaves the file alone. *)
Definition ioWriteFails (data : list Raw.t) : Io :=
  {| clock := jan11; clockSample := jan11 + 250;
     http := fun _ => ArrayOf data; disk := WriteFails None |}.

(** A call at [jan11] to which the API answers with an error object. *)
Definition ioNotArray : Io :=
  {| clock := jan11; clockSample := jan11 + 250;
     http := fun _ => NotAnArray; disk := WriteOk |}.
(* ===================================================================== *)
(** ** The rest of the server: the scheduled job, the routes, start-up *)
(* ===================================================================== *)

Section Routes.
Context {H : Host}.

(** The callback of [cron.schedule], app.js lines 197-200. *)
Definition scheduledRefresh (io : Io) : M unit :=
  bind (fetchEarningsData io) (fun _ => ret tt).

(** [app.get('/', ...)], lines 203-205. *)
Definition apiRoot : M string :=
  ret "Earnings Calendar API is running. Access /api/earnings for the data.".

(** [startServer], lines 218-225: the data is initialised before the
    server listens. *)
Definition startServer (io : Io) : M unit := initializeData io.

(** What reaches the running server: a request on one of the three routes,
    or a tick of the scheduled job.  A refresh carries the surroundings of
    its call of [fetchEarningsData]. *)
Inductive Request : Type :=
| GetRoot
| GetEarnings
| GetRefresh (io : Io)
| CronTick (io : Io).

(** What the server sends back; the scheduled job sends nothing. *)
Inductive Response : Type :=
| SentText (text : string)
| SentCards (cards : list Card)
| SentReply (reply : RefreshReply)
| SentNothing.

(** One event.  [fetchEarningsData] reads and writes the state only after
    its last [await], in one synchronous stretch, so the events of a run
    take effect one after the other, in the order in which they finish. *)
Definition handle (r : Request) : M Response :=
  match r with
  | GetRoot => bind apiRoot (fun text => ret (SentText text))
  | GetEarnings => bind apiEarnings (fun cards => ret (SentCards cards))
  | GetRefresh io => bind (apiRefresh io) (fun reply => ret (SentReply reply))
  | CronTick io => bind (scheduledRefresh io) (fun _ => ret SentNothing)
  end.

(** A sequence of events, with the responses in order. *)
Fixpoint serve (rs : list Request) : M (list Response) :=
  match rs with
  | [] => ret []
  | r :: rest =>
      bind (handle r) (fun x => bind (serve rest) (fun xs => ret (x :: xs)))
  end.

End Routes.

(* ===================================================================== *)
(** ** Reading the grouped map and the records *)
(* ===================================================================== *)

(** [earningsByDate[k]]; [None] is [undefined]. *)
Fixpoint lookupDate (k : string) (m : EarningsByDate) : option (list Earning) :=
  match m with
  | [] => None
  | (k', es) :: m' => if String.eqb k' k then Some es else lookupDate k m'
  end.

(** A Section-separator card by its shape. *)
Definition isSeparator (c : Card) : bool :=
  String.eqb (value c) "---" && String.eqb (title c) "" &&
  String.eqb (subtitle c) "".

(** An array that begins with the header card and the note card. *)
Definition wellHeaded `{Host} (cards : list Card) : Prop :=
  exists today rest, cards = headerCard today :: noteCard :: rest.

Section ReadingRecords.
Context {H : Host}.

(** A response as a client expects it: served cards begin with the header
    and the note, a refresh reports success and at least two cards. *)
Definition goodResponse (x : Response) : Prop :=
  match x with
  | SentCards cards => wellHeaded cards
  | SentReply reply => success reply = true /\ (2 <= count reply)%nat
  | SentText _ | SentNothing => True
  end.

(** The entry that lines 92-96 build from a record. *)
Definition entryOf (earning : Raw.t) : Earning :=
  {| symbol := Raw.symbol earning;
     name := orElse (Raw.name earning) (Raw.symbol earning);
     eps := Raw.epsEstimated earning |}.

(** The [Date] of line 78 is an Invalid Date. *)
Definition invalidDate (earning : Raw.t) : bool :=
  match Date_parse (split0 " "%char (Raw.date earning)) with
  | None => true
  | Some _ => false
  end.

(** The text is a date in the form YYYY-MM-DD, with a month and a day
    that exist. *)
Definition isoDateText (s : string) : bool :=
  match parseISODate s with
  | Some _ => true
  | None => false
  end.

(** The date of the record, up to the first space, is in that form. *)
Definition isoDated (earning : Raw.t) : bool :=
  isoDateText (split0 " "%char (Raw.date earning)).

(** The key a record is filed under: none for a record that the weekend
    test drops, none for one whose date cannot be formatted. *)
Definition keyOf (earning : Raw.t) : option string :=
  let date := Date_parse (split0 " "%char (Raw.date earning)) in
  if isWeekend (getDay date) then None
  else match formatDate date with
       | Ok k => Some k
       | Throw _ => None
       end.

(** The record is filed under [k]. *)
Definition filedUnder (k : string) (earning : Raw.t) : bool :=
  match keyOf earning with
  | Some k' => String.eqb k' k
  | None => false
  end.

End ReadingRecords.

(* ===================================================================== *)
(** ** Facts about [Array_sort] *)
(* ===================================================================== *)

Section ArraySortFacts.
Context {A : Type} (cmp : A -> A -> Z).

Lemma insertBy_perm (x : A) (l : list A) :
  Permutation (x :: l) (insertBy cmp x l).
Proof.
  induction l as [|y l IH]; simpl.
  - apply Permutation_refl.
  - destruct (0 <? cmp x y).
    + eapply Permutation_trans; [apply perm_swap|].
      apply perm_skip, IH.
    + apply Permutation_refl.
Qed.

Lemma Array_sort_perm (l : list A) : Permutation l (Array_sort cmp l).
Proof.
  induction l as [|x l IH]; simpl.
  - constructor.
  - eapply Permutation_trans; [apply perm_skip, IH|].
    apply insertBy_perm.
Qed.

Lemma Array_sort_Forall (P : A -> Prop) (l : list A) :
  Forall P l -> Forall P (Array_sort cmp l).
Proof.
  intros HP. eapply Permutation_Forall; [apply Array_sort_perm|exact HP].
Qed.

(** Sortedness needs only that the comparator decide the order: "not
    greater" means below, "greater" means above. *)
Variable le : A -> A -> Prop.

Lemma insertBy_sorted (x : A) (l : list A) :
  (forall y, In y l -> ((0 <? cmp x y) = false -> le x y) /\
                       ((0 <? cmp x y) = true -> le y x)) ->
  Sorted le l -> Sorted le (insertBy cmp x l).
Proof.
  induction l as [|y l IH]; intros Hc Hs; simpl.
  - repeat constructor.
  - destruct (0 <? cmp x y) eqn:E.
    + inversion Hs as [|? ? Hs' Hhd]; subst.
      constructor.
      * apply IH; [intros z Hz; apply Hc; right; exact Hz | exact Hs'].
      * destruct l as [|z l]; simpl.
        -- constructor. apply (Hc y); [left; reflexivity | exact E].
        -- destruct (0 <? cmp x z).
           ++ inversion Hhd; subst. constructor. assumption.
           ++ constructor. apply (Hc y); [left; reflexivity | exact E].
    + constructor; [exact Hs|].
      constructor. apply (Hc y); [left; reflexivity | exact E].
Qed.

Lemma Array_sort_sorted (l : list A) :
  (forall x y, In x l -> In y l ->
     ((0 <? cmp x y) = false -> le x y) /\ ((0 <? cmp x y) = true -> le y x)) ->
  Sorted le (Array_sort cmp l).
Proof.
  induction l as [|x l IH]; intros Hc; simpl.
  - constructor.
  - apply insertBy_sorted.
    + intros y Hy. apply Hc; [left; reflexivity|].
      right. eapply Permutation_in; [apply Permutation_sym, Array_sort_perm|exact Hy].
    + apply IH. intros a b Ha Hb. apply Hc; right; assumption.
Qed.

End ArraySortFacts.

(* ===================================================================== *)
(** ** Facts about the cards *)
(* ===================================================================== *)

Section CardFacts.
Context {H : Host}.

Lemma isDayLabel_dayCard (c : nat) (date : TimeValue) :
  isDayLabel (dayCard c date) = true.
Proof.
  unfold isDayLabel, dayCard. cbn [title subtitle value].
  assert (Hc : (c mod 5 < 5)%nat) by (apply Nat.mod_upper_bound; discriminate).
  generalize (numberText (getDate date)); intros txt.
  revert Hc. generalize (c mod 5)%nat; intros i Hi.
  destruct i as [|[|[|[|[|k]]]]]; try (vm_compute; reflexivity).
  exfalso; lia.
Qed.

Lemma isDayLabel_separatorCard : isDayLabel separatorCard = false.
Proof. reflexivity. Qed.

Lemma isDayLabel_noteCard : isDayLabel noteCard = false.
Proof. reflexivity. Qed.

Lemma isDayLabel_headerCard (today : TimeValue) :
  isDayLabel (headerCard today) = false.
Proof. reflexivity. Qed.

Lemma isDayLabel_companyCard (e : Earning) :
  groupedEntry e -> isDayLabel (companyCard e) = false.
Proof.
  unfold groupedEntry, isDayLabel, companyCard. cbn [title subtitle value].
  intros Hg. destruct (String.eqb_spec (name e) "") as [En|En].
  - rewrite (Hg En). destruct (epsSubtitle (eps e) =? "")%string; reflexivity.
  - reflexivity.
Qed.

Lemma countIf_app {A} (p : A -> bool) (l1 l2 : list A) :
  countIf p (l1 ++ l2) = (countIf p l1 + countIf p l2)%nat.
Proof. unfold countIf. rewrite filter_app, length_app. reflexivity. Qed.

Lemma countIf_none {A} (p : A -> bool) (l : list A) :
  Forall (fun x => p x = false) l -> countIf p l = 0%nat.
Proof.
  unfold countIf. induction 1 as [|x l Hx _ IH]; simpl; [reflexivity|].
  rewrite Hx. exact IH.
Qed.

(** A day block holds exactly one Day-label card. *)
Lemma countIf_dayBlock (c : nat) (dateStr : string) (earnings : list Earning) :
  Forall groupedEntry earnings ->
  countIf isDayLabel (dayBlock c dateStr earnings) = 1%nat.
Proof.
  intros Hg. unfold dayBlock.
  rewrite !countIf_app.
  replace (countIf isDayLabel [dayCard c (Date_parse dateStr)]) with 1%nat
    by (unfold countIf; simpl; rewrite isDayLabel_dayCard; reflexivity).
  rewrite (countIf_none isDayLabel (map companyCard (sortEarnings earnings))).
  - destruct (c <? 9)%nat; reflexivity.
  - apply Forall_map. unfold sortEarnings.
    apply Array_sort_Forall.
    eapply Forall_impl; [|exact Hg]. intros e; apply isDayLabel_companyCard.
Qed.

(* ===================================================================== *)
(** ** Facts about the loop *)
(* ===================================================================== *)

(** The counter never passes 10. *)
Lemma dateLoop_counter (entries : list (string * list Earning)) :
  forall c acc, (c <= 10)%nat -> (snd (dateLoop entries c acc) <= 10)%nat.
Proof.
  induction entries as [|[dateStr earnings] rest IH]; intros c acc Hc; cbn [dateLoop fst snd].
  - exact Hc.
  - destruct (10 <=? c)%nat eqn:E; [exact Hc|].
    apply Nat.leb_gt in E.
    destruct (isWeekend (getDay (Date_parse dateStr))); apply IH; lia.
Qed.

(** The loop only appends. *)
Lemma dateLoop_appends (entries : list (string * list Earning)) :
  forall c acc, exists rest, fst (dateLoop entries c acc) = acc ++ rest.
Proof.
  induction entries as [|[dateStr earnings] rest IH]; intros c acc; cbn [dateLoop fst snd].
  - exists []. rewrite app_nil_r. reflexivity.
  - destruct (10 <=? c)%nat.
    + exists []. rewrite app_nil_r. reflexivity.
    + destruct (isWeekend (getDay (Date_parse dateStr))).
      * apply IH.
      * destruct (IH (S c) (acc ++ dayBlock c dateStr earnings)) as [r Hr].
        exists (dayBlock c dateStr earnings ++ r).
        rewrite Hr, app_assoc. reflexivity.
Qed.

(** Each increment of the counter adds one Day-label card. *)
Lemma dateLoop_dayLabels (entries : list (string * list Earning)) :
  groupedMap entries ->
  forall c acc,
    (countIf isDayLabel (fst (dateLoop entries c acc)) + c
     = countIf isDayLabel acc + snd (dateLoop entries c acc))%nat.
Proof.
  induction 1 as [|[dateStr earnings] rest Hg _ IH]; intros c acc; cbn [dateLoop fst snd].
  - reflexivity.
  - destruct (10 <=? c)%nat; [reflexivity|].
    destruct (isWeekend (getDay (Date_parse dateStr))); [apply IH|].
    specialize (IH (S c) (acc ++ dayBlock c dateStr earnings)).
    rewrite countIf_app, countIf_dayBlock in IH by exact Hg.
    lia.
Qed.

(** The counter never decreases, and the array is unchanged when the
    counter is. *)
Lemma dateLoop_mono (entries : list (string * list Earning)) :
  forall c acc, (c <= snd (dateLoop entries c acc))%nat.
Proof.
  induction entries as [|[dateStr earnings] rest IH]; intros c acc;
    cbn [dateLoop fst snd]; [lia|].
  destruct (10 <=? c)%nat; [cbn [fst snd]; lia|].
  destruct (isWeekend (getDay (Date_parse dateStr))); [apply IH|].
  specialize (IH (S c) (acc ++ dayBlock c dateStr earnings)). lia.
Qed.

Lemma dateLoop_idle (entries : list (string * list Earning)) :
  forall c acc,
    snd (dateLoop entries c acc) = c -> fst (dateLoop entries c acc) = acc.
Proof.
  induction entries as [|[dateStr earnings] rest IH]; intros c acc;
    cbn [dateLoop fst snd]; [reflexivity|].
  destruct (10 <=? c)%nat; [reflexivity|].
  destruct (isWeekend (getDay (Date_parse dateStr))); [apply IH|].
  intros Hc. exfalso.
  pose proof (dateLoop_mono rest (S c) (acc ++ dayBlock c dateStr earnings)). lia.
Qed.

(** Between one and nine emitted days, the array ends with a separator. *)
Lemma dateLoop_last (entries : list (string * list Earning)) :
  forall c acc,
    (c < snd (dateLoop entries c acc) < 10)%nat ->
    last (fst (dateLoop entries c acc)) noteCard = separatorCard.
Proof.
  induction entries as [|[dateStr earnings] rest IH]; intros c acc;
    cbn [dateLoop fst snd]; [lia|].
  destruct (10 <=? c)%nat; [cbn [fst snd]; lia|].
  destruct (isWeekend (getDay (Date_parse dateStr))); [apply IH|].
  intros Hn.
  pose proof (dateLoop_mono rest (S c) (acc ++ dayBlock c dateStr earnings)) as Hm.
  destruct (Nat.eq_dec (snd (dateLoop rest (S c) (acc ++ dayBlock c dateStr earnings))) (S c))
    as [Heq|Hne].
  - rewrite (dateLoop_idle _ _ _ Heq).
    unfold dayBlock. rewrite !app_assoc.
    assert (Hc : (c <? 9)%nat = true) by (apply Nat.ltb_lt; lia).
    rewrite Hc. apply last_last.
  - apply IH. lia.
Qed.

End CardFacts.

(* ===================================================================== *)
(** ** Facts about the grouping *)
(* ===================================================================== *)

Section GroupingFacts.
Context {H : Host}.

Lemma orElse_empty (a : option string) (b : string) :
  orElse a b = "" -> b = "".
Proof.
  destruct a as [s|]; simpl; [|auto].
  destruct (String.eqb_spec s ""); [auto|]. intros; congruence.
Qed.

Lemma pushUnder_grouped (k : string) (e : Earning) (m : EarningsByDate) :
  groupedEntry e -> groupedMap m -> groupedMap (pushUnder k e m).
Proof.
  intros He. unfold groupedMap.
  induction 1 as [|[k' es] m Hes Hm IH]; simpl.
  - repeat constructor. exact He.
  - destruct (String.eqb k' k).
    + constructor; [|assumption]. simpl in *.
      apply Forall_app; split; [assumption|]. repeat constructor; exact He.
    + constructor; assumption.
Qed.

Lemma groupOne_grouped (m m' : EarningsByDate) (earning : Raw.t) :
  groupedMap m -> groupOne m earning = Ok m' -> groupedMap m'.
Proof.
  intros Hm. unfold groupOne.
  destruct (isWeekend _); [intros E; inversion E; subst; exact Hm|].
  destruct (formatDate _) as [k|e]; simpl; [|discriminate].
  intros E; inversion E; subst.
  apply pushUnder_grouped; [|exact Hm].
  unfold groupedEntry; simpl. apply orElse_empty.
Qed.

Lemma forEachGroup_grouped (data : list Raw.t) :
  forall m m', groupedMap m -> forEachGroup m data = Ok m' -> groupedMap m'.
Proof.
  induction data as [|earning rest IH]; intros m m' Hm; simpl.
  - intros E; inversion E; subst; exact Hm.
  - destruct (groupOne m earning) as [m1|e] eqn:E1; simpl; [|discriminate].
    apply IH. eapply groupOne_grouped; eassumption.
Qed.

(** Whatever the grouping returns consists of grouped entries. *)
Lemma groupEarnings_grouped (data : list Raw.t) (m : EarningsByDate) :
  groupEarnings data = Ok m -> groupedMap m.
Proof. apply forEachGroup_grouped. constructor. Qed.

Lemma forEachGroup_skipped (data : list Raw.t) (m : EarningsByDate) :
  Forall (fun r => skipped r = true) data -> forEachGroup m data = Ok m.
Proof.
  induction 1 as [|r rest Hr _ IH]; simpl; [reflexivity|].
  unfold groupOne. unfold skipped in Hr. rewrite Hr. simpl. exact IH.
Qed.

Lemma dateLoop_blocks (entries : list (string * list Earning)) :
  forall c acc,
    dateLoop entries c acc
    = (acc ++ flat_map blockOf (emittedDays entries c),
       (c + List.length (emittedDays entries c))%nat).
Proof.
  induction entries as [|[dateStr earnings] rest IH]; intros c acc;
    cbn [dateLoop emittedDays].
  - simpl. rewrite app_nil_r, Nat.add_0_r. reflexivity.
  - destruct (10 <=? c)%nat.
    + simpl. rewrite app_nil_r, Nat.add_0_r. reflexivity.
    + destruct (isWeekend (getDay (Date_parse dateStr))); [apply IH|].
      rewrite IH. cbn [flat_map List.length]. rewrite <- app_assoc.
      f_equal. lia.
Qed.


End GroupingFacts.

(** The comparator of the hosts above tells "greater" as the lexicographic
    order does. *)
Lemma lexCompare_gt (a b : string) :
  (0 <? lexCompare a b) = String.ltb b a.
Proof.
  unfold lexCompare, String.ltb. rewrite (String.compare_antisym a b).
  destruct (String.compare b a); reflexivity.
Qed.

Lemma lexLe_of_not_gt (a b : string) : String.ltb b a = false -> lexLe a b.
Proof.
  unfold lexLe, String.ltb, String.leb. rewrite (String.compare_antisym a b).
  destruct (String.compare b a); simpl; congruence.
Qed.

Lemma lexLe_of_lt (a b : string) : String.ltb b a = true -> lexLe b a.
Proof.
  unfold lexLe, String.ltb, String.leb.
  destruct (String.compare b a); congruence.
Qed.

(* ===================================================================== *)
(** ** Facts about the calendar *)
(* ===================================================================== *)

(** Within a 400-year era the year of the era and the day of the year
    stay in range. *)
Lemma civil_era_bounds (doe : Z) :
  0 <= doe <= 146096 ->
  let yoe := (doe - doe / 1460 + doe / 36524 - doe / 146096) / 365 in
  let doy := doe - (365 * yoe + yoe / 4 - yoe / 100) in
  0 <= yoe <= 399 /\ 0 <= doy <= 365.
Proof.
  intros Hd yoe doy. subst yoe doy. Z.div_mod_to_equations. lia.
Qed.

(** [days_from_civil] undoes [civil_from_days], whose month and day are
    those of a calendar. *)
Lemma civil_from_days_inverse (z : Z) :
  let '(y, m, d) := civil_from_days z in
  days_from_civil y m d = z /\ 1 <= m <= 12 /\ 1 <= d <= 31.
Proof.
  unfold civil_from_days.
  set (z' := z + 719468).
  set (era := z' / 146097).
  set (doe := z' - era * 146097).
  assert (Hdoe : 0 <= doe <= 146096).
  { subst doe era. Z.div_mod_to_equations. lia. }
  pose proof (civil_era_bounds doe Hdoe) as Hb. cbv zeta in Hb.
  set (yoe := (doe - doe / 1460 + doe / 36524 - doe / 146096) / 365) in *.
  set (doy := doe - (365 * yoe + yoe / 4 - yoe / 100)) in *.
  destruct Hb as [Hy Hdy].
  set (mp := (5 * doy + 2) / 153).
  assert (Hmp : 0 <= mp <= 11) by (subst mp; Z.div_mod_to_equations; lia).
  set (d := doy - (153 * mp + 2) / 5 + 1).
  assert (Hd : 1 <= d <= 31) by (subst d mp; Z.div_mod_to_equations; lia).
  set (m := if mp <? 10 then mp + 3 else mp - 9).
  assert (Hm : 1 <= m <= 12 /\ (if 2 <? m then m - 3 else m + 9) = mp
               /\ (m <=? 2) = negb (mp <? 10)).
  { subst m. destruct (mp <? 10) eqn:E.
    - apply Z.ltb_lt in E.
      assert ((2 <? mp + 3) = true) as -> by (apply Z.ltb_lt; lia).
      assert ((mp + 3 <=? 2) = false) as -> by (apply Z.leb_gt; lia).
      simpl. lia.
    - apply Z.ltb_ge in E.
      assert ((2 <? mp - 9) = false) as -> by (apply Z.ltb_ge; lia).
      assert ((mp - 9 <=? 2) = true) as -> by (apply Z.leb_le; lia).
      simpl. lia. }
  destruct Hm as (Hm & Hmp' & Hle).
  split; [|split; assumption].
  unfold days_from_civil. rewrite Hmp'.
  assert (Hy' : (if m <=? 2
                 then (if m <=? 2 then yoe + era * 400 + 1 else yoe + era * 400) - 1
                 else (if m <=? 2 then yoe + era * 400 + 1 else yoe + era * 400))
                = yoe + era * 400) by (destruct (m <=? 2); lia).
  rewrite Hy'.
  assert (He : (yoe + era * 400) / 400 = era) by (Z.div_mod_to_equations; lia).
  rewrite He.
  replace (yoe + era * 400 - era * 400) with yoe by lia.
  subst d doy doe z'. Z.div_mod_to_equations. lia.
Qed.

(** The day number is linear in the day of the month. *)
Lemma days_from_civil_day (y m d k : Z) :
  days_from_civil y m (d + k) = days_from_civil y m d + k.
Proof. unfold days_from_civil. lia. Qed.

(** Replacing the day of the month of [t] by that day plus [k] moves the
    day number by [k]. *)
Lemma MakeDay_shift (t k : Z) :
  MakeDay (YearFromTime t) (MonthFromTime t) (DateFromTime t + k) = Day t + k.
Proof.
  unfold MakeDay, YearFromTime, MonthFromTime, DateFromTime.
  pose proof (civil_from_days_inverse (Day t)) as Hinv.
  destruct (civil_from_days (Day t)) as [[y m] d].
  destruct Hinv as (Hz & Hm & Hd).
  assert (Hq : (m - 1) / 12 = 0) by (Z.div_mod_to_equations; lia).
  assert (Hr : (m - 1) mod 12 + 1 = m) by (Z.div_mod_to_equations; lia).
  rewrite Hq, Hr, Z.add_0_r.
  replace 1 with (d + (1 - d)) at 1 by lia.
  rewrite days_from_civil_day. lia.
Qed.

(** The year of the era found by [civil_from_days] is the last one that
    starts on or before the day. *)
Lemma civil_era_upper (doe : Z) :
  0 <= doe <= 146096 ->
  let yoe := (doe - doe / 1460 + doe / 36524 - doe / 146096) / 365 in
  (yoe < 399 -> doe < 365 * (yoe + 1) + (yoe + 1) / 4 - (yoe + 1) / 100).
Proof.
  intros Hd yoe. subst yoe. Z.div_mod_to_equations. lia.
Qed.

(** The day of the month found by [civil_from_days] exists in that
    month. *)
Lemma daysInMonth_bound z :
  let '(y, m, d) := civil_from_days z in d <= daysInMonth y m.
Proof.
  unfold civil_from_days.
  set (z' := z + 719468).
  set (era := z' / 146097).
  set (doe := z' - era * 146097).
  assert (Hdoe : 0 <= doe <= 146096).
  { subst doe era. Z.div_mod_to_equations. lia. }
  pose proof (civil_era_bounds doe Hdoe) as Hb. cbv zeta in Hb.
  pose proof (civil_era_upper doe Hdoe) as Hu. cbv zeta in Hu.
  set (yoe := (doe - doe / 1460 + doe / 36524 - doe / 146096) / 365) in *.
  set (doy := doe - (365 * yoe + yoe / 4 - yoe / 100)) in *.
  destruct Hb as [Hy Hdy].
  set (mp := (5 * doy + 2) / 153).
  assert (Hmp : 0 <= mp <= 11) by (subst mp; Z.div_mod_to_equations; lia).
  set (d := doy - (153 * mp + 2) / 5 + 1).
  assert (Hnext : doy + 1 <= (153 * (mp + 1) + 2) / 5)
    by (subst mp; Z.div_mod_to_equations; lia).
  assert (He : (yoe + era * 400) / 400 = era) by (Z.div_mod_to_equations; lia).
  unfold daysInMonth, days_from_civil.
  assert (Hcases : mp <= 8 \/ mp = 9 \/ mp = 10 \/ mp = 11) by lia.
  destruct Hcases as [Hc|[Hc|[Hc|Hc]]].
  - assert (E1 : (mp <? 10) = true) by (apply Z.ltb_lt; lia). rewrite E1.
    assert (E2 : (mp + 3 <=? 2) = false) by (apply Z.leb_gt; lia). rewrite E2.
    assert (E3 : (mp + 3 =? 12) = false) by (apply Z.eqb_neq; lia). rewrite E3.
    assert (E4 : (mp + 3 + 1 <=? 2) = false) by (apply Z.leb_gt; lia). rewrite E4.
    assert (E5 : (2 <? mp + 3 + 1) = true) by (apply Z.ltb_lt; lia). rewrite E5.
    assert (E6 : (2 <? mp + 3) = true) by (apply Z.ltb_lt; lia). rewrite E6.
    replace (mp + 3 + 1 - 3) with (mp + 1) by lia.
    replace (mp + 3 - 3) with mp by lia.
    subst d. lia.
  - revert Hnext. subst d. rewrite Hc. cbn.
    replace (yoe + era * 400 + 1 - 1) with (yoe + era * 400) by lia.
    lia.
  - revert Hnext. subst d. rewrite Hc. cbn. lia.
  - revert Hnext. subst d. rewrite Hc. cbn.
    replace (yoe + era * 400 + 1 - 1) with (yoe + era * 400) by lia.
    rewrite He. intros _.
    replace (yoe + era * 400 - era * 400) with yoe by lia.
    destruct (Z.eq_dec yoe 399) as [E399|N399].
    + assert (He2 : (yoe + era * 400 + 1) / 400 = era + 1) by (Z.div_mod_to_equations; lia).
      rewrite He2. 
      replace (yoe + era * 400 + 1 - (era + 1) * 400) with 0 by lia.
      subst doy. rewrite E399 in *. cbn. lia.
    + assert (He2 : (yoe + era * 400 + 1) / 400 = era) by (Z.div_mod_to_equations; lia).
      rewrite He2. specialize (Hu ltac:(lia)).
      replace (yoe + era * 400 + 1 - era * 400) with (yoe + 1) by lia.
      subst doy. lia.
Qed.

(* ===================================================================== *)
(** ** Facts about date strings *)
(* ===================================================================== *)

Lemma digit_cases (z : Z) :
  let x := z mod 10 in
  x = 0 \/ x = 1 \/ x = 2 \/ x = 3 \/ x = 4 \/ x = 5 \/ x = 6 \/ x = 7 \/ x = 8 \/ x = 9.
Proof. intros x. pose proof (Z.mod_pos_bound z 10 eq_refl). lia. Qed.

Lemma digitOf_digitChar (z : Z) : digitOf (digitChar (z mod 10)) = Some (z mod 10).
Proof.
  destruct (digit_cases z) as [E|[E|[E|[E|[E|[E|[E|[E|[E|E]]]]]]]]];
    rewrite E; reflexivity.
Qed.

Lemma digitChar_not_T (z : Z) : Ascii.eqb (digitChar (z mod 10)) "T"%char = false.
Proof.
  destruct (digit_cases z) as [E|[E|[E|[E|[E|[E|[E|[E|[E|E]]]]]]]]];
    rewrite E; reflexivity.
Qed.

Lemma parseISODate_isoDate (y m d : Z) :
  0 <= y <= 9999 -> 1 <= m <= 12 -> 1 <= d <= daysInMonth y m -> d <= 31 ->
  parseISODate (isoDate y m d) = Some (days_from_civil y m d * msPerDay).
Proof.
  intros Hy Hm Hd Hd31.
  unfold parseISODate, isoDate, digits.
  cbn [fixedDigits string_of_list_ascii String.append list_ascii_of_string].
  assert (Hh : Ascii.eqb "-"%char "-"%char = true) by reflexivity.
  rewrite Hh. cbn [andb].
  cbn [digitsValue]. rewrite !digitOf_digitChar.
  assert (Ey : 10 * (10 * (10 * (10 * 0 + (y / 10 / 10 / 10) mod 10) + (y / 10 / 10) mod 10)
                 + (y / 10) mod 10) + y mod 10 = y)
    by (Z.div_mod_to_equations; lia).
  assert (Em : 10 * (10 * 0 + (m / 10) mod 10) + m mod 10 = m)
    by (Z.div_mod_to_equations; lia).
  assert (Ed : 10 * (10 * 0 + (d / 10) mod 10) + d mod 10 = d)
    by (Z.div_mod_to_equations; lia).
  rewrite Ey, Em, Ed.
  assert (Hc : (1 <=? m) && (m <=? 12) && (1 <=? d) && (d <=? daysInMonth y m) = true).
  { rewrite !andb_true_iff. repeat split; apply Z.leb_le; lia. }
  rewrite Hc. reflexivity.
Qed.

Lemma formatDate_isoDate (t : Z) :
  0 <= YearFromTime t <= 9999 ->
  formatDate (Some t)
  = Ok (isoDate (YearFromTime t) (MonthFromTime t + 1) (DateFromTime t)).
Proof.
  intros Hy. unfold formatDate, toISOString, Result_bind.
  assert (Hr : (0 <=? YearFromTime t) && (YearFromTime t <=? 9999) = true).
  { apply andb_true_iff. split; apply Z.leb_le; lia. }
  rewrite Hr. f_equal. unfold isoDate, digits.
  generalize (YearFromTime t) (MonthFromTime t + 1) (DateFromTime t)
             (HourFromTime t) (MinFromTime t) (SecFromTime t) (msFromTime t).
  intros y m d hh mm ss ms.
  cbn [fixedDigits string_of_list_ascii String.append split0].
  rewrite !digitChar_not_T.
  assert (Hh : Ascii.eqb "-"%char "T"%char = false) by reflexivity.
  assert (HT : Ascii.eqb "T"%char "T"%char = true) by reflexivity.
  rewrite !Hh. rewrite HT. reflexivity.
Qed.

Lemma YearFromTime_range (t : Z) :
  -62167219200000 <= t < 253402300800000 -> 0 <= YearFromTime t <= 9999.
Proof.
  intros Ht. unfold YearFromTime.
  assert (Hz : -719528 <= Day t < 2932897)
    by (unfold Day, msPerDay; Z.div_mod_to_equations; lia).
  revert Hz. generalize (Day t). clear t Ht. intros z Hz.
  unfold civil_from_days.
  set (z' := z + 719468).
  set (era := z' / 146097).
  set (doe := z' - era * 146097).
  assert (Hdoe : 0 <= doe <= 146096).
  { subst doe era. Z.div_mod_to_equations. lia. }
  assert (Hera : -1 <= era <= 24) by (subst era z'; Z.div_mod_to_equations; lia).
  pose proof (civil_era_bounds doe Hdoe) as Hb. cbv zeta in Hb.
  set (yoe := (doe - doe / 1460 + doe / 36524 - doe / 146096) / 365) in *.
  set (doy := doe - (365 * yoe + yoe / 4 - yoe / 100)) in *.
  destruct Hb as [Hy Hdy].
  set (mp := (5 * doy + 2) / 153).
  assert (Hlow : era = -1 -> yoe = 399 /\ 10 <= mp).
  { intros E. assert (Hd : 146037 <= doe) by (subst doe z'; lia).
    assert (Hyoe : yoe = 399) by (subst yoe; Z.div_mod_to_equations; lia).
    split; [exact Hyoe|].
    assert (Hdoy : 306 <= doy).
    { unfold doy. rewrite Hyoe. change (399 / 4) with 99. change (399 / 100) with 3. lia. }
    unfold mp. Z.div_mod_to_equations. lia. }
  assert (Hhigh : era = 24 -> yoe < 399 \/ mp < 10).
  { intros E. assert (Hd : doe <= 146036) by (subst doe z'; lia).
    destruct (Z.eq_dec yoe 399) as [E399|N]; [right|left; lia].
    assert (Hdoy : doy <= 305).
    { unfold doy. rewrite E399. change (399 / 4) with 99. change (399 / 100) with 3. lia. }
    unfold mp. Z.div_mod_to_equations. lia. }
  destruct (mp <? 10) eqn:Emp.
  - apply Z.ltb_lt in Emp.
    assert (E2 : (mp + 3 <=? 2) = false) by (apply Z.leb_gt; subst mp; Z.div_mod_to_equations; lia).
    rewrite E2. lia.
  - apply Z.ltb_ge in Emp.
    assert (Hmp : mp <= 11) by (subst mp; Z.div_mod_to_equations; lia).
    assert (E2 : (mp - 9 <=? 2) = true) by (apply Z.leb_le; lia).
    rewrite E2. lia.
Qed.

(** Within the years 0 to 9999 the text printed by [formatDate] parses
    back to the midnight of the same UTC day. *)
Lemma parseISODate_formatDate (t : Z) :
  -62167219200000 <= t < 253402300800000 ->
  exists k, formatDate (Some t) = Ok k
            /\ parseISODate k = Some (Day t * msPerDay).
Proof.
  intros Ht. pose proof (YearFromTime_range t Ht) as Hy.
  rewrite formatDate_isoDate by exact Hy.
  eexists. split; [reflexivity|].
  pose proof (civil_from_days_inverse (Day t)) as Hinv.
  pose proof (daysInMonth_bound (Day t)) as Hdim.
  unfold YearFromTime, MonthFromTime, DateFromTime in *.
  destruct (civil_from_days (Day t)) as [[y m] d].
  destruct Hinv as (Hz & Hm & Hd).
  replace (m - 1 + 1) with m by lia.
  rewrite parseISODate_isoDate by lia.
  rewrite Hz. reflexivity.
Qed.

Lemma WeekDay_of_day (t : Z) : WeekDay (Day t * msPerDay) = WeekDay t.
Proof.
  unfold WeekDay, Day. f_equal. f_equal. unfold msPerDay.
  Z.div_mod_to_equations. lia.
Qed.

Lemma keyWeekDay_formatDate (t : Z) (k : string) :
  formatDate (Some t) = Ok k ->
  keyWeekDay k = Some (WeekDay t) \/ keyWeekDay k = None.
Proof.
  destruct ((0 <=? YearFromTime t) && (YearFromTime t <=? 9999)) eqn:Hr.
  - apply andb_true_iff in Hr. destruct Hr as [H0 H1].
    apply Z.leb_le in H0, H1.
    rewrite formatDate_isoDate by lia. intros E; inversion E; subst k. left.
    unfold keyWeekDay.
    pose proof (civil_from_days_inverse (Day t)) as Hinv.
    pose proof (daysInMonth_bound (Day t)) as Hdim.
    unfold YearFromTime, MonthFromTime, DateFromTime in *.
    destruct (civil_from_days (Day t)) as [[y m] d].
    destruct Hinv as (Hz & Hm & Hd).
    replace (m - 1 + 1) with m by lia.
    rewrite parseISODate_isoDate by lia.
    rewrite Hz. simpl. rewrite WeekDay_of_day. reflexivity.
  - unfold formatDate, toISOString, Result_bind. rewrite Hr.
    intros E; inversion E; subst k. right.
    unfold keyWeekDay, parseISODate, digits.
    generalize (Z.abs (YearFromTime t)) (MonthFromTime t + 1) (DateFromTime t)
               (HourFromTime t) (MinFromTime t) (SecFromTime t) (msFromTime t).
    intros y m d hh mm ss ms.
    assert (Hh : Ascii.eqb "-"%char "T"%char = false) by reflexivity.
    assert (Hp : Ascii.eqb "+"%char "T"%char = false) by reflexivity.
    assert (HT : Ascii.eqb "T"%char "T"%char = true) by reflexivity.
    destruct (YearFromTime t <? 0);
      cbn [fixedDigits string_of_list_ascii String.append split0];
      rewrite !digitChar_not_T, ?Hh, ?Hp, HT;
      reflexivity.
Qed.

Section ConstantOffset.
Context {H : Host}.
Variable offset : Z.
Hypothesis constant : forall t isUTC, LocalTZA t isUTC = offset.

(** Where local time keeps one offset from UTC, [setDate] with the day of
    the month plus 14 is fourteen days later. *)
Lemma setDate_constant_offset (t : Z) :
  setDate (Some t) (option_map (fun d => d + 14) (getDate (Some t)))
  = TimeClip (t + 14 * msPerDay).
Proof.
  unfold setDate, getDate, option_map, LocalTime, UTC.
  rewrite !constant. rewrite MakeDay_shift.
  f_equal. unfold MakeDate, Day, TimeWithinDay, msPerDay.
  Z.div_mod_to_equations. lia.
Qed.

(** There the window of lines 49-54 runs from the UTC date of the clock to
    the UTC date fourteen days later. *)
Lemma fetchWindow_constant_offset (t : Z) :
  fetchWindow (Some t)
  = Result_bind (formatDate (Some t)) (fun fromDate =>
    Result_bind (formatDate (TimeClip (t + 14 * msPerDay))) (fun toDate =>
    Ok (fromDate, toDate)))
  /\ Day (t + 14 * msPerDay) = Day t + 14.
Proof.
  split.
  - unfold fetchWindow. rewrite setDate_constant_offset. reflexivity.
  - unfold Day, msPerDay. Z.div_mod_to_equations. lia.
Qed.

(** And within the years 0 to 9999 the two texts name days that are 14
    days apart, the first being the UTC date of the clock. *)
Lemma fetchWindow_fourteen_days (t : Z) :
  -62167219200000 <= t -> t + 14 * msPerDay < 253402300800000 ->
  exists fromDate toDate,
    fetchWindow (Some t) = Ok (fromDate, toDate)
    /\ parseISODate fromDate = Some (Day t * msPerDay)
    /\ daysBetween fromDate toDate = Some 14.
Proof.
  intros Hlo Hhi.
  assert (Hd : 0 < msPerDay) by reflexivity.
  destruct (parseISODate_formatDate t) as (f & Ef & Pf); [lia|].
  destruct (parseISODate_formatDate (t + 14 * msPerDay)) as (e & Ee & Pe); [lia|].
  exists f, e.
  destruct (fetchWindow_constant_offset t) as [Ew Eday].
  rewrite Ew, Ef. cbn [Result_bind].
  assert (Hclip : TimeClip (t + 14 * msPerDay) = Some (t + 14 * msPerDay)).
  { unfold TimeClip.
    assert (E : (8640000000000000 <? Z.abs (t + 14 * msPerDay)) = false)
      by (apply Z.ltb_ge; lia).
    rewrite E. reflexivity. }
  rewrite Hclip, Ee. cbn [Result_bind].
  split; [reflexivity|]. split; [exact Pf|].
  unfold daysBetween. rewrite Pf, Pe. f_equal.
  rewrite Eday. unfold Day at 1 3. rewrite !Z.div_mul by discriminate. lia.
Qed.

End ConstantOffset.

(* ===================================================================== *)
(** ** Grouping on a server whose zone is UTC *)
(* ===================================================================== *)

Lemma pushUnder_keys (P : string -> Prop) (k : string) (e : Earning)
    (m : EarningsByDate) :
  P k -> Forall (fun kv => P (fst kv)) m ->
  Forall (fun kv => P (fst kv)) (pushUnder k e m).
Proof.
  intros Hk. induction 1 as [|[k' es] m Hk' Hm IH]; simpl.
  - repeat constructor. exact Hk.
  - destruct (String.eqb k' k); constructor; assumption.
Qed.

Section UtcZone.
Context {H : Host}.
Hypothesis utc : forall t isUTC, LocalTZA t isUTC = 0.

Lemma groupOne_utc (m m' : EarningsByDate) (earning : Raw.t) :
  Forall (fun kv => weekdayKey (fst kv)) m ->
  groupOne m earning = Ok m' ->
  Forall (fun kv => weekdayKey (fst kv)) m'.
Proof.
  intros Hm. unfold groupOne.
  destruct (Date_parse (split0 " "%char (Raw.date earning))) as [t|].
  - unfold getDay, option_map, LocalTime. rewrite utc, Z.add_0_r.
    unfold isWeekend.
    destruct (WeekDay t =? 0) eqn:E0; [intros E; inversion E; subst; exact Hm|].
    destruct (WeekDay t =? 6) eqn:E6; [intros E; inversion E; subst; exact Hm|].
    cbn [orb].
    destruct (formatDate (Some t)) as [k|e] eqn:Ek; simpl; [|discriminate].
    intros E; inversion E; subst.
    apply pushUnder_keys; [|exact Hm].
    exists t. apply Z.eqb_neq in E0, E6. auto.
  - simpl. discriminate.
Qed.

(** On such a server every key of the grouped map stands for a weekday. *)
Lemma groupEarnings_utc (data : list Raw.t) (m : EarningsByDate) :
  groupEarnings data = Ok m -> Forall (fun kv => weekdayKey (fst kv)) m.
Proof.
  unfold groupEarnings.
  assert (Hgen : forall m0 m1,
             Forall (fun kv => weekdayKey (fst kv)) m0 ->
             forEachGroup m0 data = Ok m1 ->
             Forall (fun kv => weekdayKey (fst kv)) m1).
  { induction data as [|earning rest IH]; intros m0 m1 H0; simpl.
    - intros E; inversion E; subst; exact H0.
    - destruct (groupOne m0 earning) as [m2|e] eqn:E1; simpl; [|discriminate].
      apply IH. eapply groupOne_utc; eassumption. }
  apply Hgen. constructor.
Qed.

(** None of those keys names a Saturday or a Sunday. *)
Lemma groupEarnings_utc_no_weekend_key (data : list Raw.t) (m : EarningsByDate) :
  groupEarnings data = Ok m ->
  Forall (fun kv => keyWeekDay (fst kv) <> Some 0 /\ keyWeekDay (fst kv) <> Some 6) m.
Proof.
  intros Hg. eapply Forall_impl; [|apply (groupEarnings_utc data m Hg)].
  intros [k es] (t & Ek & H0 & H6). cbn [fst] in *.
  destruct (keyWeekDay_formatDate t k Ek) as [E|E]; rewrite E;
    split; congruence.
Qed.

End UtcZone.

(* ===================================================================== *)
(** ** The claims *)
(* ===================================================================== *)

(** Whenever the loop emits between one and nine days, the array that
    [transform] returns ends with the separator card. *)
Lemma transform_trailing_separator `{Host} (today : TimeValue) (m : EarningsByDate) :
  (0 < snd (transform today m) < 10)%nat ->
  last (fst (transform today m)) noteCard = separatorCard.
Proof. unfold transform. apply dateLoop_last. Qed.

(** C1, evaluated on the code.  The claim asks that no separator card
    follow the last emitted day group.  On a UTC server that receives the
    single record of Monday 2024-01-15, [fetchEarningsData] returns, caches
    and writes five cards: header, note, the day label, the company card,
    and then a separator card, which is the last card of the array. *)
Theorem C1_single_day_ends_with_separator :
  fetchEarningsData (H:=hostUTC) (ioArray [aaplRecord]) emptyWorld
  = (Ok aaplCards, {| cachedData := aaplCards; dataFile := FileCards aaplCards |})
  /\ last aaplCards noteCard = separatorCard
  /\ nth 2 aaplCards noteCard = dayCard (H:=hostUTC) 0 (Date_parse (H:=hostUTC) "2024-01-15").
Proof. vm_compute. repeat split; reflexivity. Qed.

(** C2, the claim as stated fails.  On a server that is serving an
    earlier array, an answer that is not an array makes [fetchEarningsData]
    return the sample data, but the published [cachedData] is still the
    earlier array: the three parts of the claim do not hold together. *)
Lemma C2_published_sequence_not_replaced :
  let run := fetchEarningsData (H:=hostUTC) ioNotArray servingWorld in
  let sample := getSampleData (H:=hostUTC) (clockSample ioNotArray) in
  http ioNotArray (apiUrl "2024-01-11" "2024-01-25") = NotAnArray
  /\ ~ (fst run = Ok sample
        /\ cachedData (snd run) = sample
        /\ dataFile (snd run) = dataFile servingWorld).
Proof.
  split; [reflexivity|].
  intros (_ & Hcache & _). vm_compute in Hcache. discriminate Hcache.
Qed.

(** C2, amended.  When the API call is rejected or its answer is not an
    array, [fetchEarningsData] does not throw, returns the sample data, and
    leaves the state as it was: [cachedData] and the cache file are both
    unchanged.  The sample data is published only by the caller that stores
    the returned value, [initializeData] on a start without a cache
    file. *)
Theorem C2_fetch_failure_returns_sample_state_unchanged
    `{Host} (io : Io) (w : World) :
  (forall url data, http io url <> ArrayOf data) ->
  fetchEarningsData io w = (Ok (getSampleData (clockSample io)), w)
  /\ (dataFile w = NoFile ->
      initializeData io w
      = (Ok tt, {| cachedData := getSampleData (clockSample io);
                   dataFile := NoFile |})).
Proof.
  intros Hfail.
  assert (Hrun : fetchEarningsData io w = (Ok (getSampleData (clockSample io)), w)).
  { unfold fetchEarningsData, tryCatch, fetchEarningsData_try, bind, liftR.
    destruct (fetchWindow (Some (clock io))) as [range|e]; [|reflexivity].
    unfold fetchJson.
    destruct (http io (apiUrl (fst range) (snd range))) as [| |data] eqn:E;
      [reflexivity | reflexivity | exfalso; exact (Hfail _ _ E)]. }
  split; [exact Hrun|].
  intros Hfile. unfold initializeData, tryCatch, bind. rewrite Hfile, Hrun.
  unfold setCachedData. rewrite Hfile. reflexivity.
Qed.

Lemma C2_fetch_failure_witness :
  fetchEarningsData (H:=hostUTC) ioNotArray emptyWorld
  = (Ok (getSampleData (H:=hostUTC) (clockSample ioNotArray)), emptyWorld)
  /\ initializeData (H:=hostUTC) ioNotArray emptyWorld
     = (Ok tt, {| cachedData := getSampleData (H:=hostUTC) (clockSample ioNotArray);
                  dataFile := NoFile |}).
Proof.
  destruct (C2_fetch_failure_returns_sample_state_unchanged
              (H:=hostUTC) ioNotArray emptyWorld) as [Hrun Hinit].
  - intros url data. simpl. discriminate.
  - split; [exact Hrun | apply Hinit; reflexivity].
Defined.

(** C3, evaluated on the code.  The claim asks that no key of the grouped
    map name a Saturday or a Sunday.  On a server in New York the record
    dated Saturday 2024-01-13 is parsed as midnight UTC, which is Friday
    evening local time, so the weekend test of line 82 lets it through, and
    it is filed under the key 2024-01-13, a Saturday. *)
Theorem C3_saturday_key_on_new_york_server :
  groupEarnings (H:=hostNewYork) [saturdayRecord]
  = Ok [("2024-01-13", [{| symbol := "BRK"; name := "Berkshire"; eps := None |}])]
  /\ keyWeekDay "2024-01-13" = Some 6
  /\ getDay (H:=hostNewYork) (Date_parse (H:=hostNewYork) "2024-01-13") = Some 5.
Proof. vm_compute. repeat split; reflexivity. Qed.

(** The subtitle of a company card is non-empty exactly for an estimate
    that is present and truthy. *)
Lemma companyCard_subtitle (e : Earning) :
  subtitle (companyCard e) <> "" <->
  exists x, eps e = Some x /\ Number_truthy x = true.
Proof.
  unfold companyCard, epsSubtitle; simpl. split.
  - destruct (eps e) as [x|]; [|congruence].
    destruct (Number_truthy x) eqn:Ex; [|congruence].
    intros _. exists x. split; [reflexivity | exact Ex].
  - intros (x & Ex & Hx). rewrite Ex, Hx. simpl. discriminate.
Qed.

(** C4, evaluated on the code.  The claim asks for the subtitle
    "Est. EPS: $0" when the estimate is 0.  The test of line 150 is on the
    truth value of the estimate, and 0 is falsy: the card of a record whose
    estimate is 0 has the empty subtitle, on the card alone and through
    the whole of [fetchEarningsData]. *)
Theorem C4_zero_estimate_gives_empty_subtitle :
  subtitle (companyCard {| symbol := "FLAT"; name := "Flat Corp";
                           eps := Some (NumZero false) |}) = ""
  /\ fst (fetchEarningsData (H:=hostUTC) (ioArray [zeroEpsRecord]) emptyWorld)
     = Ok [ headerCard (H:=hostUTC) (Some jan11);
            noteCard;
            {| value := "Monday - 15"; title := ""; subtitle := "" |};
            {| value := "FLAT"; title := "Flat Corp"; subtitle := "" |};
            separatorCard ].
Proof. vm_compute. split; reflexivity. Qed.

(** C5.  Whatever records the grouping stage accepted, the array built from
    its map holds at most 10 Day-label cards. *)
Theorem C5_at_most_ten_day_labels
    `{Host} (today : TimeValue) (data : list Raw.t) (m : EarningsByDate) :
  groupEarnings data = Ok m ->
  (countIf isDayLabel (fst (transform today m)) <= 10)%nat.
Proof.
  intros Hg. apply groupEarnings_grouped in Hg.
  assert (Hs : groupedMap (dateEntries m)).
  { unfold groupedMap, dateEntries. apply Array_sort_Forall. exact Hg. }
  unfold transform.
  pose proof (dateLoop_dayLabels _ Hs 0%nat [headerCard today; noteCard]) as Hc.
  pose proof (dateLoop_counter (dateEntries m) 0%nat [headerCard today; noteCard]) as Hn.
  change (countIf isDayLabel [headerCard today; noteCard]) with 0%nat in Hc.
  lia.
Qed.

Lemma C5_at_most_ten_day_labels_witness :
  (countIf isDayLabel
     (fst (transform (H:=hostUTC) (Some jan11)
             [("2024-01-15",
               [{| symbol := "AAPL"; name := "AAPL";
                   eps := Some (NumDec false 15 (-1)) |}])])) <= 10)%nat.
Proof.
  apply (C5_at_most_ten_day_labels (H:=hostUTC) (Some jan11) [aaplRecord]).
  vm_compute. reflexivity.
Defined.

(** C6, evaluated on the code.  The claim asks for a window of 14 calendar
    days.  [setDate] moves the end date in local time and [toISOString]
    prints in UTC: on a server in New York, at 2024-03-02 00:30 UTC, the end
    date lands after the clocks have gone forward, one hour short of 14
    days, and the window printed is 2024-03-02 to 2024-03-15, 13 days.  The
    same instant on a UTC server gives 14. *)
Theorem C6_window_of_13_days_across_clock_change :
  fetchWindow (H:=hostNewYork) (Some mar2) = Ok ("2024-03-02", "2024-03-15")
  /\ daysBetween "2024-03-02" "2024-03-15" = Some 13
  /\ fetchWindow (H:=hostUTC) (Some mar2) = Ok ("2024-03-02", "2024-03-16").
Proof. vm_compute. repeat split; reflexivity. Qed.

Lemma Sorted_map {A B} (f : A -> B) (le : B -> B -> Prop) (l : list A) :
  Sorted (fun a b => le (f a) (f b)) l -> Sorted le (map f l).
Proof.
  induction 1 as [|a l _ IH Hhd]; simpl; constructor; [exact IH|].
  destruct Hhd; simpl; constructor; assumption.
Qed.





(** C8.  From an empty map the array is exactly the header card and the
    note card; and when every record is dropped by the weekend test of
    line 82 the map is empty. *)
Theorem C8_empty_map_gives_header_and_note
    `{Host} (today : TimeValue) (data : list Raw.t) :
  fst (transform today []) = [headerCard today; noteCard]
  /\ (Forall (fun r => skipped r = true) data -> groupEarnings data = Ok []).
Proof.
  split; [reflexivity|]. intros Hs. apply forEachGroup_skipped. exact Hs.
Qed.

Lemma C8_empty_map_gives_header_and_note_witness :
  fst (transform (H:=hostUTC) (Some jan11) [])
  = [headerCard (H:=hostUTC) (Some jan11); noteCard]
  /\ groupEarnings (H:=hostUTC) [saturdayRecord] = Ok [].
Proof.
  destruct (C8_empty_map_gives_header_and_note
              (H:=hostUTC) (Some jan11) [saturdayRecord]) as [Hout Hmap].
  split; [exact Hout | apply Hmap].
  repeat constructor.
Defined.

(** The two scenarios on a UTC server: a lone Saturday record leaves the
    header and the note; ZZZ and AAA on one Monday come out as AAA, ZZZ. *)
Lemma saturday_only_scenario :
  fst (fetchEarningsData (H:=hostUTC) (ioArray [saturdayRecord]) emptyWorld)
  = Ok [headerCard (H:=hostUTC) (Some jan11); noteCard].
Proof. vm_compute. reflexivity. Qed.

Lemma zzz_aaa_scenario :
  fst (fetchEarningsData (H:=hostUTC) (ioArray [zzzRecord; aaaRecord]) emptyWorld)
  = Ok [ headerCard (H:=hostUTC) (Some jan11);
         noteCard;
         {| value := "Monday - 15"; title := ""; subtitle := "" |};
         {| value := "AAA"; title := "AAA"; subtitle := "" |};
         {| value := "ZZZ"; title := "ZZZ"; subtitle := "" |};
         separatorCard ].
Proof. vm_compute. reflexivity. Qed.

(** Every call of [fetchEarningsData] returns normally, along one of two
    paths: the sample data with [cachedData] untouched, or the array built
    from the grouped records, cached and written. *)
Lemma fetchEarningsData_paths `{Host} (io : Io) (w : World) :
  (exists w', fetchEarningsData io w = (Ok (getSampleData (clockSample io)), w')
              /\ cachedData w' = cachedData w)
  \/ (exists data m,
        groupEarnings data = Ok m
        /\ let out := fst (transform (Some (clock io)) m) in
           fetchEarningsData io w
           = (Ok out, {| cachedData := out; dataFile := FileCards out |})).
Proof.
  unfold fetchEarningsData, tryCatch, fetchEarningsData_try, bind, liftR, ret.
  destruct (fetchWindow (Some (clock io))) as [range|e];
    [|left; exists w; split; reflexivity].
  unfold fetchJson, liftR, ret.
  destruct (http io (apiUrl (fst range) (snd range))) as [| |data];
    try (left; exists w; split; reflexivity).
  destruct (groupEarnings data) as [m|e] eqn:Eg;
    [|left; exists w; split; reflexivity].
  unfold writeFileSync, setCachedData.
  destruct (disk io) as [|[f|]].
  - right. exists data, m. split; [exact Eg|]. reflexivity.
  - left. eexists. split; reflexivity.
  - left. exists w. split; reflexivity.
Qed.

(** C9.  Whatever the clock, the network and the disk do, the handler of
    [/api/refresh] does not throw and answers [success: true] with the
    message [Data refreshed successfully]; the count is the length of what
    [fetchEarningsData] returned, sample data included. *)
Theorem C9_refresh_always_reports_success `{Host} (io : Io) (w : World) :
  exists data w',
    fetchEarningsData io w = (Ok data, w')
    /\ apiRefresh io w
       = (Ok {| success := true;
                message := "Data refreshed successfully";
                count := List.length data |}, w').
Proof.
  unfold apiRefresh, bind, ret.
  destruct (fetchEarningsData_paths io w) as [(w' & E & _)|(data & m & _ & E)].
  - exists (getSampleData (clockSample io)), w'. rewrite E. split; reflexivity.
  - cbv zeta in E. eexists _, _. rewrite E. split; reflexivity.
Qed.

(** The refresh after a failed fetch: success, and the 49 cards of the
    sample data counted. *)
Lemma apiRefresh_after_failure :
  apiRefresh (H:=hostUTC) ioNotArray emptyWorld
  = (Ok {| success := true; message := "Data refreshed successfully"; count := 49 |},
     emptyWorld).
Proof. vm_compute. reflexivity. Qed.

(** C10.  Every array that [fetchEarningsData] returns, the sample data as
    well as the array built from the records, begins with the header card
    and the note card, and so has at least two elements. *)
Theorem C10_every_array_begins_with_header_and_note `{Host} (io : Io) (w : World) :
  exists today rest w',
    fetchEarningsData io w = (Ok (headerCard today :: noteCard :: rest), w')
    /\ value (headerCard today) = "The Most Anticipated Earnings Releases"
    /\ value noteCard = "(only showing confirmed release dates)"
    /\ (2 <= List.length (headerCard today :: noteCard :: rest))%nat.
Proof.
  destruct (fetchEarningsData_paths io w) as [(w' & E & _)|(data & m & _ & E)].
  - exists (Some (clockSample io)), sampleBody, w'.
    split; [exact E|]. repeat split. simpl. lia.
  - cbv zeta in E. unfold transform in E.
    destruct (dateLoop_appends (dateEntries m) 0%nat
                [headerCard (Some (clock io)); noteCard]) as [rest Hr].
    rewrite Hr in E. simpl in E.
    exists (Some (clock io)), rest. eexists.
    split; [exact E|]. repeat split. simpl. lia.
Qed.

(* ===================================================================== *)
(** ** More about the grouping *)
(* ===================================================================== *)

Lemma lookupDate_pushUnder (k k' : string) (e : Earning) (m : EarningsByDate) :
  lookupDate k (pushUnder k' e m)
  = if String.eqb k' k
    then Some (match lookupDate k m with Some es => es ++ [e] | None => [e] end)
    else lookupDate k m.
Proof.
  induction m as [|[k'' es] m IH]; simpl.
  - destruct (String.eqb k' k); reflexivity.
  - destruct (String.eqb_spec k'' k') as [E1|N1]; simpl.
    + subst k''. destruct (String.eqb k' k); reflexivity.
    + destruct (String.eqb_spec k'' k) as [E2|N2].
      * subst k''. destruct (String.eqb_spec k' k) as [E3|N3]; [congruence|reflexivity].
      * exact IH.
Qed.

Lemma In_keys_pushUnder (k k' : string) (e : Earning) (m : EarningsByDate) :
  In k (map fst (pushUnder k' e m)) <-> k = k' \/ In k (map fst m).
Proof.
  induction m as [|[k'' es] m IH]; simpl.
  - intuition.
  - destruct (String.eqb_spec k'' k') as [E|N]; simpl.
    + subst. intuition.
    + rewrite IH. intuition.
Qed.

Lemma pushUnder_NoDup (k : string) (e : Earning) (m : EarningsByDate) :
  NoDup (map fst m) -> NoDup (map fst (pushUnder k e m)).
Proof.
  induction m as [|[k' es] m IH]; simpl; intros Hn.
  - repeat constructor. intros [].
  - inversion Hn as [|? ? Hk' Hm]; subst.
    destruct (String.eqb_spec k' k) as [E|N]; simpl.
    + constructor; assumption.
    + constructor; [|apply IH; exact Hm].
      rewrite In_keys_pushUnder. intros [E|Hin]; [congruence | contradiction].
Qed.

Lemma pushUnder_length (k : string) (e : Earning) (m : EarningsByDate) :
  List.length (flat_map snd (pushUnder k e m)) = S (List.length (flat_map snd m)).
Proof.
  induction m as [|[k' es] m IH]; simpl; [reflexivity|].
  destruct (String.eqb k' k); simpl.
  - rewrite !length_app. simpl. lia.
  - rewrite !length_app, IH. lia.
Qed.

Section GroupingMore.
Context {H : Host}.

(** One pass of the callback, by cases on the record. *)
Lemma groupOne_cases (m : EarningsByDate) (earning : Raw.t) :
  groupOne m earning
  = if invalidDate earning then Throw RangeError
    else match keyOf earning with
         | Some k => Ok (pushUnder k (entryOf earning) m)
         | None => Ok m
         end.
Proof.
  unfold groupOne, invalidDate, keyOf, entryOf.
  destruct (Date_parse (split0 " "%char (Raw.date earning))) as [t|].
  - destruct (isWeekend (getDay (Some t))); reflexivity.
  - reflexivity.
Qed.

Lemma keyOf_skipped (earning : Raw.t) :
  invalidDate earning = false ->
  (keyOf earning = None <-> skipped earning = true).
Proof.
  unfold invalidDate, keyOf, skipped.
  destruct (Date_parse (split0 " "%char (Raw.date earning))) as [t|];
    [intros _|discriminate].
  destruct (isWeekend (getDay (Some t))); [tauto|].
  simpl. split; discriminate.
Qed.

Lemma forEachGroup_lookup (data : list Raw.t) :
  forall m0 m k,
    forEachGroup m0 data = Ok m ->
    lookupDate k m
    = match lookupDate k m0, map entryOf (filter (filedUnder k) data) with
      | None, [] => None
      | None, l => Some l
      | Some es, l => Some (es ++ l)
      end.
Proof.
  induction data as [|r rest IH]; intros m0 m k; cbn [forEachGroup].
  - intros E; inversion E; subst. simpl.
    destruct (lookupDate k m); [rewrite app_nil_r|]; reflexivity.
  - rewrite groupOne_cases.
    destruct (invalidDate r); [discriminate|].
    cbn [filter].
    assert (Hf : filedUnder k r
                 = match keyOf r with Some k' => String.eqb k' k | None => false end)
      by reflexivity.
    rewrite Hf. clear Hf.
    destruct (keyOf r) as [k'|]; cbn [Result_bind]; intros E.
    + rewrite (IH _ _ k E), lookupDate_pushUnder.
      destruct (String.eqb k' k); cbn [map].
      * destruct (lookupDate k m0) as [es|]; [rewrite <- app_assoc|]; reflexivity.
      * reflexivity.
    + exact (IH _ _ k E).
Qed.

(** X1.  What is filed under a key.  After a grouping that does not throw,
    the list under a key holds exactly the records filed under it, as
    entries, in the order of the input and with repetitions kept; a key
    under which nothing was filed is absent. *)
Theorem groupEarnings_lookup (data : list Raw.t) (m : EarningsByDate) (k : string) :
  groupEarnings data = Ok m ->
  lookupDate k m
  = match map entryOf (filter (filedUnder k) data) with
    | [] => None
    | l => Some l
    end.
Proof. intros E. apply (forEachGroup_lookup data [] m k E). Qed.

Lemma forEachGroup_throws (data : list Raw.t) :
  forall m0,
    (forall e, forEachGroup m0 data = Throw e -> e = RangeError)
    /\ (forEachGroup m0 data = Throw RangeError
        <-> Exists (fun r => invalidDate r = true) data).
Proof.
  induction data as [|r rest IH]; intros m0; cbn [forEachGroup].
  - split; [discriminate|]. split; [discriminate|]. intros Hx; inversion Hx.
  - rewrite groupOne_cases.
    destruct (invalidDate r) eqn:Ei.
    + cbn [Result_bind]. split; [intros e E; congruence|].
      split; [intros _; left; exact Ei | reflexivity].
    + assert (Hstep : exists m1,
                 Result_bind
                   match keyOf r with
                   | Some k => Ok (pushUnder k (entryOf r) m0)
                   | None => Ok m0
                   end (fun m' => forEachGroup m' rest)
                 = forEachGroup m1 rest).
      { destruct (keyOf r); eexists; reflexivity. }
      destruct Hstep as [m1 ->]. destruct (IH m1) as [IH1 IH2].
      split; [exact IH1|]. rewrite IH2. split.
      * intros Hx. right. exact Hx.
      * intros Hx. inversion Hx; subst; [congruence | assumption].
Qed.

(** X2.  When the grouping throws.  On records that carry a date string,
    the grouping throws exactly when the date of some record is one that
    [new Date] cannot read: the weekend test lets the Invalid Date through
    and [formatDate] throws.  When every date reads, a map is returned. *)
Theorem groupEarnings_throws_on_unreadable_date (data : list Raw.t) :
  (exists e, groupEarnings data = Throw e)
  <-> Exists (fun r => invalidDate r = true) data.
Proof.
  destruct (forEachGroup_throws data []) as [Hkind Hiff].
  fold (groupEarnings data) in Hkind, Hiff. split.
  - intros [e E]. apply Hiff. rewrite E. f_equal. apply Hkind. exact E.
  - intros Hx. exists RangeError. apply Hiff. exact Hx.
Qed.

Lemma forEachGroup_NoDup (data : list Raw.t) :
  forall m0 m, NoDup (map fst m0) -> forEachGroup m0 data = Ok m -> NoDup (map fst m).
Proof.
  induction data as [|r rest IH]; intros m0 m Hn; cbn [forEachGroup].
  - intros E; inversion E; subst; exact Hn.
  - rewrite groupOne_cases. destruct (invalidDate r); [discriminate|].
    destruct (keyOf r) as [k|]; cbn [Result_bind]; apply IH;
      [apply pushUnder_NoDup|]; exact Hn.
Qed.

Lemma forEachGroup_length (data : list Raw.t) :
  forall m0 m,
    forEachGroup m0 data = Ok m ->
    List.length (flat_map snd m)
    = (List.length (flat_map snd m0)
       + List.length (filter (fun r => negb (skipped r)) data))%nat.
Proof.
  induction data as [|r rest IH]; intros m0 m; cbn [forEachGroup filter].
  - intros E; inversion E; subst. simpl. lia.
  - rewrite groupOne_cases. destruct (invalidDate r) eqn:Ei; [discriminate|].
    pose proof (keyOf_skipped r Ei) as Hk.
    destruct (keyOf r) as [k|]; cbn [Result_bind]; intros E.
    + destruct (skipped r); [exfalso; apply proj2 in Hk; discriminate (Hk eq_refl)|].
      rewrite (IH _ _ E), pushUnder_length. simpl. lia.
    + rewrite (proj1 Hk eq_refl). simpl. exact (IH _ _ E).
Qed.

(** X3.  Nothing is lost and nothing is merged.  After a grouping that does
    not throw, no key occurs twice in the map, and the entries of the map
    are as many as the records that the weekend test did not drop. *)
Theorem groupEarnings_keeps_every_record (data : list Raw.t) (m : EarningsByDate) :
  groupEarnings data = Ok m ->
  NoDup (map fst m)
  /\ List.length (flat_map snd m)
     = List.length (filter (fun r => negb (skipped r)) data).
Proof.
  intros E. split.
  - apply (forEachGroup_NoDup data [] m); [constructor | exact E].
  - apply (forEachGroup_length data [] m E).
Qed.

Lemma split0_append (c : ascii) (s rest : string) :
  split0 c (s +++ String c rest) = split0 c s.
Proof.
  induction s as [|a s IH]; simpl.
  - rewrite Ascii.eqb_refl. reflexivity.
  - destruct (Ascii.eqb a c); [reflexivity|]. rewrite IH. reflexivity.
Qed.

(** X4.  The time of day is not read.  Whatever follows a space after the
    date of each record, the grouping gives the same result, map or
    exception. *)
Theorem groupEarnings_ignores_time_of_day
    (data : list Raw.t) (timeOf : Raw.t -> string) :
  groupEarnings
    (map (fun r => {| Raw.date := Raw.date r +++ String " "%char (timeOf r);
                      Raw.symbol := Raw.symbol r;
                      Raw.name := Raw.name r;
                      Raw.epsEstimated := Raw.epsEstimated r |}) data)
  = groupEarnings data.
Proof.
  unfold groupEarnings. generalize (@nil (string * list Earning)).
  induction data as [|r rest IH]; intros m0; cbn [map forEachGroup]; [reflexivity|].
  unfold groupOne. cbn [Raw.date Raw.symbol Raw.name Raw.epsEstimated].
  rewrite split0_append.
  destruct (isWeekend _); cbn [Result_bind]; [apply IH|].
  destruct (formatDate _); cbn [Result_bind]; [apply IH | reflexivity].
Qed.

End GroupingMore.

(* ===================================================================== *)
(** ** More about the sort *)
(* ===================================================================== *)

Section ArraySortMore.
Context {A : Type} (cmp : A -> A -> Z).

Lemma insertBy_filter (p : A -> bool) (x : A) (l : list A) :
  (p x = true -> forall y, In y l -> p y = true -> (0 <? cmp x y) = false) ->
  filter p (insertBy cmp x l) = filter p (x :: l).
Proof.
  induction l as [|y l IH]; intros Hx; [reflexivity|].
  cbn [insertBy]. destruct (0 <? cmp x y) eqn:E; [|reflexivity].
  cbn [filter]. rewrite IH.
  - cbn [filter]. destruct (p x) eqn:Epx; [|reflexivity].
    destruct (p y) eqn:Epy; [|reflexivity].
    rewrite (Hx eq_refl y (or_introl eq_refl) Epy) in E. discriminate.
  - intros Hpx z Hz. apply Hx; [exact Hpx | right; exact Hz].
Qed.

(** Elements that the comparator does not tell apart keep their order. *)
Lemma Array_sort_stable (p : A -> bool) (l : list A) :
  (forall x y, In x l -> In y l -> p x = true -> p y = true ->
     (0 <? cmp x y) = false) ->
  filter p (Array_sort cmp l) = filter p l.
Proof.
  induction l as [|x l IH]; intros Hp; [reflexivity|].
  cbn [Array_sort fold_right]. fold (Array_sort cmp l).
  rewrite insertBy_filter.
  - cbn [filter]. rewrite IH; [reflexivity|].
    intros a b Ha Hb. apply Hp; right; assumption.
  - intros Hpx y Hy Hpy. apply Hp; [left; reflexivity| |exact Hpx|exact Hpy].
    right. eapply Permutation_in; [apply Permutation_sym, Array_sort_perm|exact Hy].
Qed.

End ArraySortMore.

(** X5.  Repeated symbols keep their order.  Provided the collation does not
    put a symbol after itself, the entries of one date that carry that
    symbol come out of the sort of line 132 in the order in which they were
    filed. *)
Theorem sortEarnings_keeps_order_of_equal_symbols
    `{Host} (s : string) (earnings : list Earning) :
  localeCompare s s <= 0 ->
  filter (fun e => String.eqb (symbol e) s) (sortEarnings earnings)
  = filter (fun e => String.eqb (symbol e) s) earnings.
Proof.
  intros Hs. unfold sortEarnings. apply Array_sort_stable.
  intros x y _ _ Hx Hy. apply String.eqb_eq in Hx, Hy. rewrite Hx, Hy.
  apply Z.ltb_ge. exact Hs.
Qed.

(** X23.  The cards of a date follow the collation.  Provided
    [localeCompare] never ranks two symbols of the date each after the
    other, the sort of line 132 rearranges the entries of the date so that
    no symbol is ranked after the one that follows it. *)
Theorem sortEarnings_in_collation_order `{Host} (earnings : list Earning) :
  (forall a b, In a (map symbol earnings) -> In b (map symbol earnings) ->
     0 < localeCompare a b -> localeCompare b a <= 0) ->
  Permutation earnings (sortEarnings earnings)
  /\ Sorted (fun a b => localeCompare a b <= 0)
       (map symbol (sortEarnings earnings)).
Proof.
  intros Hasym. split; [apply Array_sort_perm|].
  apply Sorted_map with (f := symbol). unfold sortEarnings.
  apply Array_sort_sorted.
  intros x y Hx Hy. split.
  - intros E. apply Z.ltb_ge in E. exact E.
  - intros E. apply Z.ltb_lt in E.
    apply Hasym; [apply in_map; exact Hx | apply in_map; exact Hy | exact E].
Qed.

(** X6.  The dates are visited in ascending order.  On a host whose collation
    orders the keys of the map as the lexicographic order does, the entries
    that the loop of line 122 walks through are the entries of the map,
    rearranged so that the keys ascend. *)
Theorem dateEntries_ascending `{Host} (m : EarningsByDate) :
  (forall a b, In a (map fst m) -> In b (map fst m) ->
     (0 <? localeCompare a b) = String.ltb b a) ->
  Permutation m (dateEntries m)
  /\ Sorted lexLe (map fst (dateEntries m)).
Proof.
  intros Hagree. split; [apply Array_sort_perm|].
  apply Sorted_map with (f := fst). unfold dateEntries.
  apply Array_sort_sorted.
  intros x y Hx Hy.
  rewrite (Hagree (fst x) (fst y)) by (apply in_map; assumption).
  split; [apply lexLe_of_not_gt | apply lexLe_of_lt].
Qed.

(* ===================================================================== *)
(** ** More about the card array *)
(* ===================================================================== *)

Section CardsMore.
Context {H : Host}.

Lemma isSeparator_dayCard (c : nat) (date : TimeValue) :
  isSeparator (dayCard c date) = false.
Proof.
  unfold isSeparator, dayCard. cbn [title subtitle value].
  assert (Hc : (c mod 5 < 5)%nat) by (apply Nat.mod_upper_bound; discriminate).
  generalize (numberText (getDate date)); intros txt.
  revert Hc. generalize (c mod 5)%nat; intros i Hi.
  destruct i as [|[|[|[|[|k]]]]]; try reflexivity.
  exfalso; lia.
Qed.

Lemma isSeparator_companyCard (e : Earning) :
  groupedEntry e -> isSeparator (companyCard e) = false.
Proof.
  unfold groupedEntry, isSeparator, companyCard. cbn [title subtitle value].
  intros Hg. destruct (String.eqb_spec (name e) "") as [En|En].
  - rewrite (Hg En). reflexivity.
  - apply andb_false_iff. left. apply andb_false_iff. right. reflexivity.
Qed.

Lemma countIf_separators_dayBlock (c : nat) (dateStr : string)
    (earnings : list Earning) :
  Forall groupedEntry earnings ->
  countIf isSeparator (dayBlock c dateStr earnings)
  = if (c <? 9)%nat then 1%nat else 0%nat.
Proof.
  intros Hg. unfold dayBlock. rewrite !countIf_app.
  replace (countIf isSeparator [dayCard c (Date_parse dateStr)]) with 0%nat
    by (unfold countIf; simpl; rewrite isSeparator_dayCard; reflexivity).
  rewrite (countIf_none isSeparator (map companyCard (sortEarnings earnings))).
  - destruct (c <? 9)%nat; reflexivity.
  - apply Forall_map. unfold sortEarnings. apply Array_sort_Forall.
    eapply Forall_impl; [|exact Hg]. intros e; apply isSeparator_companyCard.
Qed.

Lemma dateLoop_separators (entries : list (string * list Earning)) :
  groupedMap entries ->
  forall c acc,
    (countIf isSeparator (fst (dateLoop entries c acc)) + Nat.min c 9
     = countIf isSeparator acc + Nat.min (snd (dateLoop entries c acc)) 9)%nat.
Proof.
  induction 1 as [|[dateStr earnings] rest Hg _ IH]; intros c acc;
    cbn [dateLoop fst snd]; [reflexivity|].
  destruct (10 <=? c)%nat; [reflexivity|].
  destruct (isWeekend (getDay (Date_parse dateStr))); [apply IH|].
  specialize (IH (S c) (acc ++ dayBlock c dateStr earnings)).
  rewrite countIf_app, countIf_separators_dayBlock in IH by exact Hg.
  destruct (c <? 9)%nat eqn:E;
    [apply Nat.ltb_lt in E | apply Nat.ltb_ge in E]; lia.
Qed.

(** X7.  Labels and separators, counted.  In the array built from a grouped
    map the Day-label cards are as many as the days that the loop counted,
    and the separator cards are one per day label, except that a tenth day
    brings none. *)
Theorem transform_counts_labels_and_separators
    (today : TimeValue) (data : list Raw.t) (m : EarningsByDate) :
  groupEarnings data = Ok m ->
  let out := fst (transform today m) in
  let days := snd (transform today m) in
  countIf isDayLabel out = days
  /\ countIf isSeparator out = Nat.min days 9
  /\ (days <= 10)%nat.
Proof.
  intros Hg out days. subst out days. apply groupEarnings_grouped in Hg.
  assert (Hs : groupedMap (dateEntries m)).
  { unfold groupedMap, dateEntries. apply Array_sort_Forall. exact Hg. }
  unfold transform.
  pose proof (dateLoop_dayLabels _ Hs 0%nat [headerCard today; noteCard]) as Hl.
  pose proof (dateLoop_separators _ Hs 0%nat [headerCard today; noteCard]) as Hp.
  pose proof (dateLoop_counter (dateEntries m) 0%nat [headerCard today; noteCard]) as Hn.
  change (countIf isDayLabel [headerCard today; noteCard]) with 0%nat in Hl.
  change (countIf isSeparator [headerCard today; noteCard]) with 0%nat in Hp.
  cbn [Nat.min] in Hp. lia.
Qed.

Lemma emittedDays_head (entries : list (string * list Earning)) :
  forall c d rest, emittedDays entries c = d :: rest -> fst d = c.
Proof.
  induction entries as [|[dateStr earnings] more IH]; intros c d rest;
    cbn [emittedDays]; [discriminate|].
  destruct (10 <=? c)%nat; [discriminate|].
  destruct (isWeekend (getDay (Date_parse dateStr))); [apply IH|].
  intros E; inversion E; reflexivity.
Qed.

(** X8.  The first label is Monday.  Whenever the loop emits a day, the card
    after the header and the note is a Day-label card whose value begins
    with [Monday - ], whatever day of the week the earliest date is. *)
Theorem transform_first_label_is_monday (today : TimeValue) (m : EarningsByDate) :
  (0 < snd (transform today m))%nat ->
  exists txt rest,
    fst (transform today m)
    = headerCard today :: noteCard
      :: {| value := "Monday - " +++ txt; title := ""; subtitle := "" |} :: rest.
Proof.
  unfold transform. rewrite dateLoop_blocks. cbn [fst snd]. intros Hn.
  destruct (emittedDays (dateEntries m) 0) as [|d days] eqn:E;
    [simpl in Hn; lia|].
  apply emittedDays_head in E. destruct d as [c [k es]]. cbn [fst] in E. subst c.
  cbn [flat_map blockOf fst snd app].
  eexists (numberText (getDate (Date_parse k))), _. reflexivity.
Qed.

End CardsMore.

(* ===================================================================== *)
(** ** More about [formatDate] *)
(* ===================================================================== *)

Lemma isoDate_length (y m d : Z) : String.length (isoDate y m d) = 10%nat.
Proof. reflexivity. Qed.

Lemma Date_parse_formatDate `{Host} (t : Z) :
  -62167219200000 <= t < 253402300800000 ->
  exists k,
    formatDate (Some t) = Ok k
    /\ String.length k = 10%nat
    /\ Date_parse k = Some (Day t * msPerDay).
Proof.
  intros Ht. pose proof (YearFromTime_range t Ht) as Hy.
  destruct (parseISODate_formatDate t Ht) as (k & Ek & Pk).
  exists k. split; [exact Ek|]. split.
  - rewrite formatDate_isoDate in Ek by exact Hy.
    inversion Ek. apply isoDate_length.
  - unfold Date_parse. rewrite Pk. unfold TimeClip.
    assert (E : (8640000000000000 <? Z.abs (Day t * msPerDay)) = false).
    { apply Z.ltb_ge. unfold Day, msPerDay. Z.div_mod_to_equations. lia. }
    rewrite E. reflexivity.
Qed.

(** X11.  A formatted date reads back.  For an instant in the years 0 to
    9999, [formatDate] gives a text of ten characters which
    [new Date] reads, on every host, as midnight UTC of the same day. *)
Theorem formatDate_reads_back `{Host} (t : Z) :
  -62167219200000 <= t < 253402300800000 ->
  exists k,
    formatDate (Some t) = Ok k
    /\ String.length k = 10%nat
    /\ Date_parse k = Some (Day t * msPerDay).
Proof.
  intros Ht. destruct (Date_parse_formatDate t Ht) as (k & Ek & Lk & Pk).
  exists k. repeat split; assumption.
Qed.

(** X12.  One text per day.  Within the years 0 to 9999, two instants get the
    same text from [formatDate] exactly when they fall on the same UTC
    day. *)
Theorem formatDate_same_text_same_day (t1 t2 : Z) :
  -62167219200000 <= t1 < 253402300800000 ->
  -62167219200000 <= t2 < 253402300800000 ->
  (formatDate (Some t1) = formatDate (Some t2) <-> Day t1 = Day t2).
Proof.
  intros H1 H2. split.
  - intros E.
    destruct (parseISODate_formatDate t1 H1) as (k1 & E1 & P1).
    destruct (parseISODate_formatDate t2 H2) as (k2 & E2 & P2).
    rewrite E1, E2 in E. inversion E; subst k2.
    rewrite P1 in P2. inversion P2 as [Hd].
    unfold msPerDay in Hd. lia.
  - intros E.
    rewrite !formatDate_isoDate by (apply YearFromTime_range; assumption).
    unfold YearFromTime, MonthFromTime, DateFromTime. rewrite E. reflexivity.
Qed.

(* ===================================================================== *)
(** ** Records dated in the ISO date form *)
(* ===================================================================== *)

Lemma daysInMonth_le_31 (y m : Z) : 1 <= m <= 12 -> daysInMonth y m <= 31.
Proof.
  intros Hm. unfold daysInMonth, days_from_civil.
  assert (Hc : m = 1 \/ m = 2 \/ m = 3 \/ m = 4 \/ m = 5 \/ m = 6 \/ m = 7
               \/ m = 8 \/ m = 9 \/ m = 10 \/ m = 11 \/ m = 12) by lia.
  destruct Hc as [E|[E|[E|[E|[E|[E|[E|[E|[E|[E|[E|E]]]]]]]]]]]; subst m; cbn;
    Z.div_mod_to_equations; lia.
Qed.

Lemma days_from_civil_range (y m d : Z) :
  0 <= y <= 9999 -> 1 <= m <= 12 -> 1 <= d <= 31 ->
  -719528 <= days_from_civil y m d <= 2932896.
Proof.
  intros Hy Hm Hd. unfold days_from_civil.
  set (y' := if m <=? 2 then y - 1 else y).
  set (mp := if 2 <? m then m - 3 else m + 9).
  assert (Hy' : -1 <= y' <= 9999 /\ 0 <= mp <= 11
                /\ (y' = 9999 -> mp <= 9) /\ (y' = -1 -> 10 <= mp)).
  { subst y' mp. destruct (m <=? 2) eqn:E1; destruct (2 <? m) eqn:E2;
      try apply Z.leb_le in E1; try apply Z.leb_gt in E1;
      try apply Z.ltb_lt in E2; try apply Z.ltb_ge in E2; lia. }
  clearbody y' mp. destruct Hy' as (A & B & C & D).
  assert (Hdoy : 0 <= (153 * mp + 2) / 5 <= 337
                 /\ (mp <= 9 -> (153 * mp + 2) / 5 <= 275)
                 /\ (10 <= mp -> 306 <= (153 * mp + 2) / 5))
    by (Z.div_mod_to_equations; lia).
  generalize dependent ((153 * mp + 2) / 5). intros doy0 Hdoy.
  Z.div_mod_to_equations. lia.
Qed.

Section IsoDated.
Context {H : Host}.

(** A date in the ISO date form is read as midnight UTC of a day in the
    years 0 to 9999. *)
Lemma Date_parse_iso (s : string) :
  isoDateText s = true ->
  exists t, Date_parse s = Some t
            /\ -62167219200000 <= t < 253402300800000
            /\ Day t * msPerDay = t.
Proof.
  unfold isoDateText, Date_parse.
  destruct (parseISODate s) as [t|] eqn:P; [intros _|discriminate].
  unfold parseISODate in P.
  destruct (list_ascii_of_string s) as [|y1 [|y2 [|y3 [|y4 [|h1 [|m1 [|m2 [|h2
    [|d1 [|d2 [|x l]]]]]]]]]]]; try discriminate.
  destruct (Ascii.eqb h1 "-"%char && Ascii.eqb h2 "-"%char); [|discriminate].
  cbn [digitsValue] in P.
  destruct (digitOf y1) as [a1|] eqn:A1; [|discriminate].
  destruct (digitOf y2) as [a2|] eqn:A2; [|discriminate].
  destruct (digitOf y3) as [a3|] eqn:A3; [|discriminate].
  destruct (digitOf y4) as [a4|] eqn:A4; [|discriminate].
  destruct (digitOf m1) as [b1|] eqn:B1; [|discriminate].
  destruct (digitOf m2) as [b2|] eqn:B2; [|discriminate].
  destruct (digitOf d1) as [c1|] eqn:C1; [|discriminate].
  destruct (digitOf d2) as [c2|] eqn:C2; [|discriminate].
  assert (Hdig : forall c v, digitOf c = Some v -> 0 <= v <= 9).
  { intros c v. unfold digitOf.
    destruct ((48 <=? Z.of_nat (nat_of_ascii c)) && (Z.of_nat (nat_of_ascii c) <=? 57)) eqn:E;
      [|discriminate].
    apply andb_true_iff in E. destruct E as [E1 E2].
    apply Z.leb_le in E1, E2. intros E; inversion E. lia. }
  apply Hdig in A1, A2, A3, A4.
  set (y := 10 * (10 * (10 * (10 * 0 + a1) + a2) + a3) + a4) in P.
  set (m := 10 * (10 * 0 + b1) + b2) in P.
  set (d := 10 * (10 * 0 + c1) + c2) in P.
  destruct ((1 <=? m) && (m <=? 12) && (1 <=? d) && (d <=? daysInMonth y m)) eqn:Hc;
    [|discriminate].
  rewrite !andb_true_iff in Hc. destruct Hc as (((Hm1 & Hm2) & Hd1) & Hd2).
  apply Z.leb_le in Hm1, Hm2, Hd1, Hd2.
  inversion P; subst t. clear P.
  pose proof (daysInMonth_le_31 y m (conj Hm1 Hm2)) as H31.
  assert (Hy : 0 <= y <= 9999) by (subst y; lia).
  pose proof (days_from_civil_range y m d Hy (conj Hm1 Hm2) ltac:(lia)) as Hr.
  exists (days_from_civil y m d * msPerDay).
  assert (Hclip : TimeClip (days_from_civil y m d * msPerDay)
                  = Some (days_from_civil y m d * msPerDay)).
  { unfold TimeClip.
    assert (E : (8640000000000000 <? Z.abs (days_from_civil y m d * msPerDay)) = false)
      by (apply Z.ltb_ge; unfold msPerDay; lia).
    rewrite E. reflexivity. }
  split; [exact Hclip|].
  unfold Day. rewrite Z.div_mul by discriminate.
  split; [unfold msPerDay; lia | reflexivity].
Qed.

(** The key of such a record reads back as the date of the record, so the
    weekend test of line 129 repeats that of line 82; and the record does
    not make the callback throw. *)
Lemma groupOne_keys_pass (m : EarningsByDate) (earning : Raw.t) :
  isoDated earning = true ->
  Forall (fun kv => isWeekend (getDay (Date_parse (fst kv))) = false) m ->
  exists m',
    groupOne m earning = Ok m'
    /\ Forall (fun kv => isWeekend (getDay (Date_parse (fst kv))) = false) m'.
Proof.
  intros Hiso Hm. unfold groupOne.
  destruct (Date_parse_iso _ Hiso) as (t & Ep & Hr & Hmid). rewrite Ep.
  destruct (isWeekend (getDay (Some t))) eqn:Ew; [exists m; split; [reflexivity|exact Hm]|].
  destruct (Date_parse_formatDate t Hr) as (k & Ek & _ & Pk).
  rewrite Ek. cbn [Result_bind]. eexists. split; [reflexivity|].
  apply (pushUnder_keys (fun k => isWeekend (getDay (Date_parse k)) = false));
    [|exact Hm].
  rewrite Pk, Hmid. exact Ew.
Qed.

Lemma forEachGroup_keys_pass (data : list Raw.t) :
  Forall (fun r => isoDated r = true) data ->
  forall m0,
    Forall (fun kv => isWeekend (getDay (Date_parse (fst kv))) = false) m0 ->
    exists m,
      forEachGroup m0 data = Ok m
      /\ Forall (fun kv => isWeekend (getDay (Date_parse (fst kv))) = false) m.
Proof.
  induction 1 as [|earning rest Hiso _ IH]; intros m0 H0; cbn [forEachGroup].
  - exists m0. split; [reflexivity | exact H0].
  - destruct (groupOne_keys_pass m0 earning Hiso H0) as (m1 & E1 & H1).
    rewrite E1. cbn [Result_bind]. apply IH. exact H1.
Qed.

Lemma emittedDays_all (entries : list (string * list Earning)) :
  Forall (fun kv => isWeekend (getDay (Date_parse (fst kv))) = false) entries ->
  forall c, emittedDays entries c = combine (seq c (10 - c)) entries.
Proof.
  induction 1 as [|[dateStr earnings] rest Hk _ IH]; intros c; cbn [emittedDays].
  - destruct (seq c (10 - c)); reflexivity.
  - cbn [fst] in Hk. rewrite Hk.
    destruct (10 <=? c)%nat eqn:E.
    + apply Nat.leb_le in E. replace (10 - c)%nat with 0%nat by lia. reflexivity.
    + apply Nat.leb_gt in E.
      replace (10 - c)%nat with (S (10 - S c)) by lia.
      cbn [seq combine]. rewrite IH. reflexivity.
Qed.

(** X9.  Every filed date is shown, up to ten.  When the date of every
    record is in the form YYYY-MM-DD, followed or not by a space and a time,
    then on every host and in every time zone the grouping does not throw,
    and the weekend test inside the loop never skips a key that the
    grouping made: the loop emits the first ten entries in sorted order,
    numbered from 0, and counts the smaller of 10 and the number of keys. *)
Theorem transform_emits_first_ten_dates (today : TimeValue) (data : list Raw.t) :
  Forall (fun r => isoDated r = true) data ->
  exists m,
    groupEarnings data = Ok m
    /\ fst (transform today m)
       = headerCard today :: noteCard
         :: flat_map blockOf (combine (seq 0 10) (dateEntries m))
    /\ snd (transform today m) = Nat.min 10 (List.length m).
Proof.
  intros Hiso.
  destruct (forEachGroup_keys_pass data Hiso [] (Forall_nil _)) as (m & Eg & Hg).
  exists m. split; [exact Eg|].
  assert (Hs : Forall (fun kv => isWeekend (getDay (Date_parse (fst kv))) = false)
                 (dateEntries m)).
  { unfold dateEntries. apply Array_sort_Forall. exact Hg. }
  unfold transform. rewrite dateLoop_blocks, (emittedDays_all _ Hs).
  cbn [fst snd]. split; [reflexivity|].
  rewrite length_combine, length_seq.
  unfold dateEntries.
  rewrite <- (Permutation_length (Array_sort_perm _ m)). reflexivity.
Qed.

End IsoDated.

(* ===================================================================== *)
(** ** More about [fetchEarningsData] *)
(* ===================================================================== *)

Section ServerMore.
Context {H : Host}.

Lemma getSampleData_wellHeaded (now : Z) : wellHeaded (getSampleData now).
Proof. exists (Some now), sampleBody. reflexivity. Qed.

Lemma transform_wellHeaded (today : TimeValue) (m : EarningsByDate) :
  wellHeaded (fst (transform today m)).
Proof.
  unfold transform.
  destruct (dateLoop_appends (dateEntries m) 0%nat [headerCard today; noteCard])
    as [rest Hr].
  rewrite Hr. exists today, rest. reflexivity.
Qed.

(** The run of [fetchEarningsData] when everything succeeds. *)
Lemma fetchEarningsData_live (io : Io) (w : World) (range : string * string)
    (data : list Raw.t) (m : EarningsByDate) :
  fetchWindow (Some (clock io)) = Ok range ->
  http io (apiUrl (fst range) (snd range)) = ArrayOf data ->
  groupEarnings data = Ok m ->
  disk io = WriteOk ->
  let out := fst (transform (Some (clock io)) m) in
  fetchEarningsData io w
  = (Ok out, {| cachedData := out; dataFile := FileCards out |}).
Proof.
  intros Hw Hh Hg Hd out.
  unfold fetchEarningsData, tryCatch, fetchEarningsData_try, bind, liftR, ret.
  rewrite Hw. unfold fetchJson, ret. rewrite Hh, Hg.
  unfold writeFileSync, setCachedData. rewrite Hd. reflexivity.
Qed.

(** X15.  All or nothing.  After any call of [fetchEarningsData], either the
    sample data was returned and [cachedData] is what it was, or the
    returned array is at once the new [cachedData] and the content of the
    cache file. *)
Theorem fetchEarningsData_publishes_all_or_nothing
    (io : Io) (w w' : World) (out : list Card) :
  fetchEarningsData io w = (Ok out, w') ->
  (out = getSampleData (clockSample io) /\ cachedData w' = cachedData w)
  \/ (cachedData w' = out /\ dataFile w' = FileCards out).
Proof.
  intros E.
  destruct (fetchEarningsData_paths io w) as [(w1 & E1 & Hc)|(data & m & _ & E1)].
  - rewrite E1 in E. inversion E; subst. left. split; [reflexivity | exact Hc].
  - cbv zeta in E1. rewrite E1 in E. inversion E; subst. right. split; reflexivity.
Qed.

(** X16.  One unreadable date discards the answer.  When the array of the API
    holds a record whose date [new Date] cannot read, the whole answer is
    dropped: the sample data is returned and neither [cachedData] nor the
    file changes. *)
Theorem fetchEarningsData_one_invalid_date
    (io : Io) (w : World) (data : list Raw.t) :
  (forall url, http io url = ArrayOf data) ->
  Exists (fun r => invalidDate r = true) data ->
  fetchEarningsData io w = (Ok (getSampleData (clockSample io)), w).
Proof.
  intros Hh Hx. apply (proj2 (forEachGroup_throws data [])) in Hx.
  fold (groupEarnings data) in Hx.
  unfold fetchEarningsData, tryCatch, fetchEarningsData_try, bind, liftR, ret.
  destruct (fetchWindow (Some (clock io))) as [range|e]; [|reflexivity].
  unfold fetchJson, ret. rewrite Hh, Hx. reflexivity.
Qed.

(** X17.  A failed write publishes nothing.  When [writeFileSync] throws, the
    sample data is returned and [cachedData] is what it was, whatever
    became of the file. *)
Theorem fetchEarningsData_failed_write
    (io : Io) (w : World) (residue : option FileState) :
  disk io = WriteFails residue ->
  exists w',
    fetchEarningsData io w = (Ok (getSampleData (clockSample io)), w')
    /\ cachedData w' = cachedData w
    /\ (residue = None -> w' = w).
Proof.
  intros Hd.
  unfold fetchEarningsData, tryCatch, fetchEarningsData_try, bind, liftR, ret.
  destruct (fetchWindow (Some (clock io))) as [range|e];
    [|exists w; repeat split].
  unfold fetchJson, liftR, ret.
  destruct (http io (apiUrl (fst range) (snd range))) as [| |data];
    try solve [exists w; repeat split].
  destruct (groupEarnings data) as [m|e]; [|exists w; repeat split].
  unfold writeFileSync. rewrite Hd.
  destruct residue as [f|].
  - eexists. split; [reflexivity|]. split; [reflexivity | discriminate].
  - exists w. repeat split.
Qed.

(** X18.  The returned array does not depend on the state.  Two calls in the
    same surroundings return the same array, whatever was cached or on
    disk before. *)
Theorem fetchEarningsData_result_ignores_state (io : Io) (w1 w2 : World) :
  fst (fetchEarningsData io w1) = fst (fetchEarningsData io w2).
Proof.
  unfold fetchEarningsData, tryCatch, fetchEarningsData_try, bind, liftR, ret.
  destruct (fetchWindow (Some (clock io))) as [range|e]; [|reflexivity].
  unfold fetchJson, liftR, ret.
  destruct (http io (apiUrl (fst range) (snd range))) as [| |data];
    try reflexivity.
  destruct (groupEarnings data) as [m|e]; [|reflexivity].
  unfold writeFileSync, setCachedData.
  destruct (disk io) as [|[f|]]; reflexivity.
Qed.

(** X19.  A refresh repeated changes nothing more.  Calling
    [fetchEarningsData] again in the same surroundings, on the state that
    the first call left, gives the same array and leaves that state. *)
Theorem fetchEarningsData_idempotent (io : Io) (w : World) :
  fetchEarningsData io (snd (fetchEarningsData io w)) = fetchEarningsData io w.
Proof.
  unfold fetchEarningsData, tryCatch, fetchEarningsData_try, bind, liftR, ret.
  destruct (fetchWindow (Some (clock io))) as [range|e]; [|reflexivity].
  unfold fetchJson, liftR, ret.
  destruct (http io (apiUrl (fst range) (snd range))) as [| |data];
    try reflexivity.
  destruct (groupEarnings data) as [m|e]; [|reflexivity].
  unfold writeFileSync, setCachedData.
  destruct (disk io) as [|[f|]]; reflexivity.
Qed.

(* ===================================================================== *)
(** ** More about start-up and the routes *)
(* ===================================================================== *)

Lemma fetchEarningsData_wellHeaded (io : Io) (w : World) :
  exists out w',
    fetchEarningsData io w = (Ok out, w')
    /\ wellHeaded out
    /\ (cachedData w' = cachedData w \/ cachedData w' = out).
Proof.
  destruct (fetchEarningsData_paths io w) as [(w1 & E1 & Hc)|(data & m & _ & E1)].
  - exists (getSampleData (clockSample io)), w1.
    split; [exact E1|]. split; [apply getSampleData_wellHeaded | left; exact Hc].
  - cbv zeta in E1. eexists _, _. split; [exact E1|].
    split; [apply transform_wellHeaded | right; reflexivity].
Qed.

(** X20.  What start-up leaves in the cache.  [initializeData] never throws.
    With a readable cache file it publishes the file as it is and makes no
    call; with an unreadable one it publishes the sample data; with none it
    calls [fetchEarningsData] once and publishes exactly the array that the
    call returned, which begins with the header and the note, on top of
    the state that the call left. *)
Theorem initializeData_outcome (io : Io) (w : World) :
  exists w',
    initializeData io w = (Ok tt, w')
    /\ match dataFile w with
       | FileCards cards =>
           w' = {| cachedData := cards; dataFile := FileCards cards |}
       | FileCorrupt =>
           w' = {| cachedData := getSampleData (clockSample io);
                   dataFile := FileCorrupt |}
       | NoFile =>
           exists out w1,
             fetchEarningsData io w = (Ok out, w1)
             /\ w' = {| cachedData := out; dataFile := dataFile w1 |}
             /\ wellHeaded out
       end.
Proof.
  unfold initializeData, tryCatch.
  destruct (dataFile w) as [|cards|] eqn:Ef.
  - destruct (fetchEarningsData_wellHeaded io w) as (out & w1 & E & Hh & _).
    unfold bind. rewrite E. unfold setCachedData. eexists. split; [reflexivity|].
    exists out, w1. split; [reflexivity|]. split; [reflexivity | exact Hh].
  - unfold setCachedData. rewrite Ef. eexists. split; reflexivity.
  - unfold setCachedData. rewrite Ef. eexists. split; reflexivity.
Qed.

Lemma wellHeaded_length (cards : list Card) :
  wellHeaded cards -> (2 <= List.length cards)%nat.
Proof. intros (today & rest & ->). simpl. lia. Qed.

Lemma handle_keeps_cache (r : Request) (w : World) :
  wellHeaded (cachedData w) ->
  exists x w',
    handle r w = (Ok x, w') /\ wellHeaded (cachedData w') /\ goodResponse x.
Proof.
  intros Hw. destruct r as [| |io|io]; unfold handle, bind, ret.
  - eexists _, w. unfold apiRoot, ret. split; [reflexivity|]. split; [exact Hw|exact I].
  - eexists _, w. unfold apiEarnings. split; [reflexivity|]. split; exact Hw.
  - unfold apiRefresh, bind, ret.
    destruct (fetchEarningsData_wellHeaded io w) as (out & w1 & E & Hh & Hc).
    rewrite E. eexists _, w1. split; [reflexivity|]. split.
    + destruct Hc as [Hc|Hc]; rewrite Hc; assumption.
    + split; [reflexivity | apply wellHeaded_length; exact Hh].
  - unfold scheduledRefresh, bind, ret.
    destruct (fetchEarningsData_wellHeaded io w) as (out & w1 & E & Hh & Hc).
    rewrite E. eexists _, w1. split; [reflexivity|]. split; [|exact I].
    destruct Hc as [Hc|Hc]; rewrite Hc; assumption.
Qed.

(** X21.  The running server keeps a sound cache.  Starting from a cache that
    begins with the header and the note, no sequence of requests and
    scheduled refreshes makes a handler throw; each event gets one
    response; every array served by [/api/earnings] begins with the header
    and the note; every refresh answers success with a count of at least 2;
    and the cache at the end still begins with the header and the note. *)
Theorem serve_keeps_cache_well_headed (rs : list Request) (w : World) :
  wellHeaded (cachedData w) ->
  exists xs w',
    serve rs w = (Ok xs, w')
    /\ List.length xs = List.length rs
    /\ Forall goodResponse xs
    /\ wellHeaded (cachedData w').
Proof.
  revert w. induction rs as [|r rest IH]; intros w Hw; cbn [serve].
  - exists [], w. repeat split; [constructor | exact Hw].
  - destruct (handle_keeps_cache r w Hw) as (x & w1 & E1 & Hw1 & Hx).
    destruct (IH w1 Hw1) as (xs & w2 & E2 & Hl & Hxs & Hw2).
    exists (x :: xs), w2. unfold bind, ret. rewrite E1, E2.
    split; [reflexivity|]. split; [simpl; lia|].
    split; [constructor; assumption | exact Hw2].
Qed.

(** X22.  A refresh is what the next read serves.  When the window, the call,
    the grouping and the write all succeed, [/api/refresh] reports the
    length of the new array, and [/api/earnings] then serves that array,
    which is also what the cache file holds. *)
Theorem refresh_then_read (io : Io) (w : World) (range : string * string)
    (data : list Raw.t) (m : EarningsByDate) :
  fetchWindow (Some (clock io)) = Ok range ->
  http io (apiUrl (fst range) (snd range)) = ArrayOf data ->
  groupEarnings data = Ok m ->
  disk io = WriteOk ->
  let out := fst (transform (Some (clock io)) m) in
  serve [GetRefresh io; GetEarnings] w
  = (Ok [SentReply {| success := true;
                      message := "Data refreshed successfully";
                      count := List.length out |};
         SentCards out],
     {| cachedData := out; dataFile := FileCards out |}).
Proof.
  intros Hw Hh Hg Hd out.
  cbn [serve handle]. unfold bind, ret, apiRefresh, bind, ret.
  rewrite (fetchEarningsData_live io w range data m Hw Hh Hg Hd).
  reflexivity.
Qed.

End ServerMore.

(* ===================================================================== *)
(** ** The properties above on concrete runs *)
(* ===================================================================== *)

Lemma groupEarnings_lookup_witness :
  lookupDate "2024-01-15"
    [("2024-01-15", [entryOf zzzRecord; entryOf aaaRecord])]
  = match map entryOf
            (filter (filedUnder (H:=hostUTC) "2024-01-15") [zzzRecord; aaaRecord]) with
    | [] => None
    | l => Some l
    end.
Proof.
  apply (groupEarnings_lookup (H:=hostUTC) [zzzRecord; aaaRecord]).
  vm_compute. reflexivity.
Defined.

Lemma groupEarnings_throws_on_unreadable_date_witness :
  exists e, groupEarnings (H:=hostUTC) [aaplRecord; badDateRecord] = Throw e.
Proof.
  apply (proj2 (groupEarnings_throws_on_unreadable_date (H:=hostUTC)
                  [aaplRecord; badDateRecord])).
  right. left. vm_compute. reflexivity.
Defined.

Lemma groupEarnings_keeps_every_record_witness :
  NoDup (map fst [("2024-01-15", [entryOf zzzRecord; entryOf aaaRecord])])
  /\ List.length (flat_map snd [("2024-01-15", [entryOf zzzRecord; entryOf aaaRecord])])
     = List.length (filter (fun r => negb (skipped (H:=hostUTC) r))
                      [zzzRecord; saturdayRecord; aaaRecord]).
Proof.
  apply (groupEarnings_keeps_every_record (H:=hostUTC)
           [zzzRecord; saturdayRecord; aaaRecord]).
  vm_compute. reflexivity.
Defined.

Lemma sortEarnings_keeps_order_of_equal_symbols_witness :
  let first := {| symbol := "AAA"; name := "first"; eps := None |} in
  let second := {| symbol := "AAA"; name := "second"; eps := None |} in
  filter (fun e => String.eqb (symbol e) "AAA")
    (sortEarnings (H:=hostUTC) [entryOf zzzRecord; first; second])
  = filter (fun e => String.eqb (symbol e) "AAA") [entryOf zzzRecord; first; second].
Proof.
  intros first second.
  apply (sortEarnings_keeps_order_of_equal_symbols (H:=hostUTC)).
  vm_compute. discriminate.
Defined.

Lemma dateEntries_ascending_witness :
  let m := [("2024-01-16", [entryOf zzzRecord]); ("2024-01-15", [entryOf aaaRecord])] in
  Permutation m (dateEntries (H:=hostUTC) m)
  /\ Sorted lexLe (map fst (dateEntries (H:=hostUTC) m)).
Proof.
  intros m. apply (dateEntries_ascending (H:=hostUTC) m).
  intros a b [<-|[<-|[]]] [<-|[<-|[]]]; vm_compute; reflexivity.
Defined.

Lemma transform_counts_labels_and_separators_witness :
  let m := [("2024-01-15", [entryOf aaplRecord])] in
  let out := fst (transform (H:=hostUTC) (Some jan11) m) in
  let days := snd (transform (H:=hostUTC) (Some jan11) m) in
  countIf isDayLabel out = days
  /\ countIf isSeparator out = Nat.min days 9
  /\ (days <= 10)%nat.
Proof.
  apply (transform_counts_labels_and_separators (H:=hostUTC) (Some jan11) [aaplRecord]).
  vm_compute. reflexivity.
Defined.

Lemma transform_first_label_is_monday_witness :
  let m := [("2024-01-16", [entryOf zzzRecord])] in
  exists txt rest,
    fst (transform (H:=hostUTC) (Some jan11) m)
    = headerCard (H:=hostUTC) (Some jan11) :: noteCard
      :: {| value := "Monday - " +++ txt; title := ""; subtitle := "" |} :: rest.
Proof.
  intros m. apply (transform_first_label_is_monday (H:=hostUTC) (Some jan11) m).
  vm_compute. lia.
Defined.

Lemma formatDate_reads_back_witness :
  exists k,
    formatDate (Some jan11) = Ok k
    /\ String.length k = 10%nat
    /\ Date_parse (H:=hostNewYork) k = Some (Day jan11 * msPerDay).
Proof.
  apply (formatDate_reads_back (H:=hostNewYork) jan11).
  vm_compute. split; [discriminate | reflexivity].
Defined.

Lemma formatDate_same_text_same_day_witness :
  formatDate (Some jan11) = formatDate (Some (jan11 + msPerHour))
  <-> Day jan11 = Day (jan11 + msPerHour).
Proof.
  apply (formatDate_same_text_same_day jan11 (jan11 + msPerHour));
    vm_compute; (split; [discriminate | reflexivity]).
Defined.

Lemma transform_emits_first_ten_dates_witness :
  let data := [zzzRecord; aaplRecord; saturdayRecord] in
  exists m,
    groupEarnings (H:=hostNewYork) data = Ok m
    /\ fst (transform (H:=hostNewYork) (Some jan11) m)
       = headerCard (H:=hostNewYork) (Some jan11) :: noteCard
         :: flat_map (blockOf (H:=hostNewYork))
              (combine (seq 0 10) (dateEntries (H:=hostNewYork) m))
    /\ snd (transform (H:=hostNewYork) (Some jan11) m) = Nat.min 10 (List.length m).
Proof.
  intros data.
  apply (transform_emits_first_ten_dates (H:=hostNewYork) (Some jan11) data).
  repeat constructor.
Defined.

Lemma fetchEarningsData_publishes_all_or_nothing_witness :
  (aaplCards = getSampleData (H:=hostUTC) (clockSample (ioArray [aaplRecord]))
   /\ cachedData {| cachedData := aaplCards; dataFile := FileCards aaplCards |}
      = cachedData emptyWorld)
  \/ (cachedData {| cachedData := aaplCards; dataFile := FileCards aaplCards |}
      = aaplCards
      /\ dataFile {| cachedData := aaplCards; dataFile := FileCards aaplCards |}
         = FileCards aaplCards).
Proof.
  apply (fetchEarningsData_publishes_all_or_nothing (H:=hostUTC)
           (ioArray [aaplRecord]) emptyWorld).
  vm_compute. reflexivity.
Defined.

Lemma fetchEarningsData_one_invalid_date_witness :
  fetchEarningsData (H:=hostUTC) (ioArray [aaplRecord; badDateRecord]) servingWorld
  = (Ok (getSampleData (H:=hostUTC) (clockSample (ioArray [aaplRecord; badDateRecord]))),
     servingWorld).
Proof.
  apply (fetchEarningsData_one_invalid_date (H:=hostUTC)
           (ioArray [aaplRecord; badDateRecord]) servingWorld
           [aaplRecord; badDateRecord]).
  - intros url. reflexivity.
  - right. left. vm_compute. reflexivity.
Defined.

Lemma fetchEarningsData_failed_write_witness :
  exists w',
    fetchEarningsData (H:=hostUTC) (ioWriteFails [aaplRecord]) servingWorld
    = (Ok (getSampleData (H:=hostUTC) (clockSample (ioWriteFails [aaplRecord]))), w')
    /\ cachedData w' = cachedData servingWorld
    /\ (@None FileState = None -> w' = servingWorld).
Proof.
  apply (fetchEarningsData_failed_write (H:=hostUTC)
           (ioWriteFails [aaplRecord]) servingWorld None).
  reflexivity.
Defined.

Lemma serve_keeps_cache_well_headed_witness :
  let rs := [GetEarnings; GetRefresh ioNotArray; CronTick (ioArray [aaplRecord]);
             GetEarnings; GetRoot] in
  exists xs w',
    serve (H:=hostUTC) rs servingWorld = (Ok xs, w')
    /\ List.length xs = List.length rs
    /\ Forall (goodResponse (H:=hostUTC)) xs
    /\ wellHeaded (H:=hostUTC) (cachedData w').
Proof.
  intros rs. apply (serve_keeps_cache_well_headed (H:=hostUTC) rs servingWorld).
  exists (Some jan11), (skipn 2 aaplCards). reflexivity.
Defined.

Lemma refresh_then_read_witness :
  serve (H:=hostUTC) [GetRefresh (ioArray [aaplRecord]); GetEarnings] emptyWorld
  = (Ok [SentReply {| success := true;
                      message := "Data refreshed successfully";
                      count := 5 |};
         SentCards aaplCards],
     {| cachedData := aaplCards; dataFile := FileCards aaplCards |}).
Proof.
  apply (refresh_then_read (H:=hostUTC) (ioArray [aaplRecord]) emptyWorld
           ("2024-01-11", "2024-01-25") [aaplRecord]
           [("2024-01-15", [entryOf aaplRecord])]);
    vm_compute; reflexivity.
Defined.

Lemma fetchWindow_fourteen_days_witness :
  exists fromDate toDate,
    fetchWindow (H:=hostUTC) (Some jan11) = Ok (fromDate, toDate)
    /\ parseISODate fromDate = Some (Day jan11 * msPerDay)
    /\ daysBetween fromDate toDate = Some 14.
Proof.
  apply (fetchWindow_fourteen_days (H:=hostUTC) 0 (fun _ _ => eq_refl) jan11);
    vm_compute; [discriminate | reflexivity].
Defined.

Lemma groupEarnings_utc_no_weekend_key_witness :
  Forall (fun kv => keyWeekDay (fst kv) <> Some 0 /\ keyWeekDay (fst kv) <> Some 6)
    [("2024-01-15", [entryOf zzzRecord; entryOf aaaRecord])].
Proof.
  apply (groupEarnings_utc_no_weekend_key (H:=hostUTC) (fun _ _ => eq_refl)
           [zzzRecord; saturdayRecord; aaaRecord]).
  vm_compute. reflexivity.
Defined.

Lemma transform_trailing_separator_witness :
  last (fst (transform (H:=hostUTC) (Some jan11)
               [("2024-01-15", [entryOf aaplRecord])])) noteCard
  = separatorCard.
Proof.
  apply (transform_trailing_separator (H:=hostUTC) (Some jan11)
           [("2024-01-15", [entryOf aaplRecord])]).
  vm_compute. lia.
Defined.

Lemma sortEarnings_in_collation_order_witness :
  let earnings := [entryOf zzzRecord; entryOf aaplLowerRecord; entryOf brkMixedRecord] in
  Permutation earnings (sortEarnings (H:=hostCaseFolding) earnings)
  /\ Sorted (fun a b => caseFirstCompare a b <= 0)
       (map symbol (sortEarnings (H:=hostCaseFolding) earnings)).
Proof.
  intros earnings.
  apply (sortEarnings_in_collation_order (H:=hostCaseFolding) earnings).
  intros a b [<-|[<-|[<-|[]]]] [<-|[<-|[<-|[]]]]; vm_compute; congruence.
Defined.
